(** * Distributed values of [tensorflow/python/distribute/values.py]

    A shallow embedding of the replica-value containers, the two variable
    synchronisation policies, the regroup/select algorithms and the
    checkpoint restore rule of [values.py], with the properties of the
    accompanying specification stated and proved over it.

    Conventions.
    - Python objects live in a store ([heap]) and are named by their
      address ([oid]); [is] is address equality.  Lists, tuples,
      namedtuples and dicts are structured values ([VNode]); every other
      Python value is a reference to a store object ([VRef]).
    - A function that can raise returns a [result]; a function that also
      mutates or allocates runs in the monad [M] (store passing, the store
      reached so far is kept when an exception is raised).
    - The ambient execution context (thread mode, update replica id,
      current device) is the explicit argument [Env].
    - Tensor contents are exact rationals ([Qc]); rounding of the numeric
      kernels is outside the model.
    - The classes modelled are [DistributedValues] and its host-side
      subclasses, physical variables and [AggregatingVariable].  The
      accelerator mixin [TPUVariableMixin], which overrides [get],
      [handle] and the assign family of its two subclasses, is not part of
      this development. *)

From Stdlib Require Import List ZArith QArith Qcanon String Ascii Bool Arith Lia.
Import ListNotations.

Close Scope Q_scope.
Open Scope nat_scope.
Open Scope string_scope.
Open Scope list_scope.

Set Implicit Arguments.

(* ------------------------------------------------------------------ *)
(** ** Exceptions and results *)

Inductive exn : Type :=
| ValueError (msg : string)
| NotImplementedError (msg : string)
| RuntimeError (msg : string)
| TypeError (msg : string)
| AssertionError
| IndexError
| AttributeError
| KeyError.

Inductive result (A : Type) : Type :=
| Ok (a : A)
| Raise (e : exn).

Arguments Ok {A} a.
Arguments Raise {A} e.

Definition rbind {A B} (r : result A) (k : A -> result B) : result B :=
  match r with
  | Ok a => k a
  | Raise e => Raise e
  end.

Definition is_ok {A} (r : result A) : bool :=
  match r with Ok _ => true | Raise _ => false end.

(** [t[i]] on a Python tuple or list: a negative index counts from the
    end, an index outside [-len, len) raises IndexError. *)
Definition py_getitem {A} (t : list A) (i : Z) : result A :=
  let n := Z.of_nat (List.length t) in
  let j := if (i <? 0)%Z then (i + n)%Z else i in
  if ((j <? 0)%Z || (n <=? j)%Z)%bool then Raise IndexError
  else match nth_error t (Z.to_nat j) with
       | Some x => Ok x
       | None => Raise IndexError
       end.

(* ------------------------------------------------------------------ *)
(** ** The replica-context oracle

    Modelled from the spec: [distribution_strategy_context] and
    [distribute_lib] are collaborators outside [values.py].  A thread is in
    one of three modes: no strategy scope entered (the default replica
    context, replica 0 of 1), the cross-replica context of a strategy, or
    the replica context of a strategy.  [get_replica_context] is defined
    exactly when the thread is not in cross-replica context. *)

Record Strategy : Type := {
  strategy_id : nat;
  strategy_num_replicas_in_sync : Z
}.

(** [a is b] on strategy objects. *)
Definition strategy_is (a b : Strategy) : bool :=
  Nat.eqb (strategy_id a) (strategy_id b).

(** [replica_id_in_sync_group] is a Python int, or a tensor whose
    [tensor_util.constant_value] is known or not. *)
Inductive replica_id_repr : Type :=
| ReplicaIdInt (i : Z)
| ReplicaIdTensor (constant_value : option Z).

Record ReplicaContext : Type := {
  rc_strategy : option Strategy;      (* None: the default strategy *)
  replica_id_in_sync_group : replica_id_repr;
  num_replicas_in_sync : Z
}.

Inductive thread_mode : Type :=
| DefaultReplicaThreadMode
| CrossReplicaThreadMode (s : Strategy)
| InReplicaThreadMode (s : Strategy) (replica_id : replica_id_repr).

Record Env : Type := {
  mode : thread_mode;
  update_replica_id : option Z;      (* distribute_lib.get_update_replica_id() *)
  current_device : string;           (* device_util.current() *)
  canonicalize : string -> string    (* device_util.canonicalize *)
}.

Definition get_replica_context (env : Env) : option ReplicaContext :=
  match mode env with
  | DefaultReplicaThreadMode =>
      Some {| rc_strategy := None;
              replica_id_in_sync_group := ReplicaIdInt 0;
              num_replicas_in_sync := 1 |}
  | CrossReplicaThreadMode _ => None
  | InReplicaThreadMode s rid =>
      Some {| rc_strategy := Some s;
              replica_id_in_sync_group := rid;
              num_replicas_in_sync := strategy_num_replicas_in_sync s |}
  end.

Definition in_cross_replica_context (env : Env) : bool :=
  match mode env with
  | CrossReplicaThreadMode _ => true
  | _ => false
  end.

Definition has_strategy (env : Env) : bool :=
  match mode env with
  | DefaultReplicaThreadMode => false
  | _ => true
  end.

(** [get_strategy()]; [None] stands for the default strategy object. *)
Definition get_strategy (env : Env) : option Strategy :=
  match mode env with
  | DefaultReplicaThreadMode => None
  | CrossReplicaThreadMode s => Some s
  | InReplicaThreadMode s _ => Some s
  end.

Definition get_update_replica_id (env : Env) : option Z :=
  update_replica_id env.

(** Modelled from the spec: [with strategy.scope()] makes [strategy] the
    active strategy and puts the thread in its cross-replica context for
    the body of the [with]. *)
Definition enter_scope (strategy : Strategy) (env : Env) : Env :=
  {| mode := CrossReplicaThreadMode strategy;
     update_replica_id := update_replica_id env;
     current_device := current_device env;
     canonicalize := canonicalize env |}.

(** [x is not strategy] where [x] may be the default strategy. *)
Definition is_strategy (x : option Strategy) (strategy : Strategy) : bool :=
  match x with
  | Some s => strategy_is s strategy
  | None => false
  end.

Definition _get_current_replica_id_as_int (env : Env) : option Z :=
  match get_replica_context env with
  | Some replica_context =>
      match replica_id_in_sync_group replica_context with
      | ReplicaIdInt i => Some i
      | ReplicaIdTensor cv => cv
      end
  | None => get_update_replica_id env
  end.

Definition _assert_strategy (env : Env) (strategy : Strategy) : result unit :=
  if negb (has_strategy env) then
    Raise (RuntimeError "Need to be inside with strategy.scope()")
  else if negb (is_strategy (get_strategy env) strategy) then
    Raise (RuntimeError "Mixing different tf.distribute.Strategy objects")
  else Ok tt.

(** The context manager [_enter_or_assert_strategy]: the environment in
    which the body of the [with] runs, or the exception raised on entry. *)
Definition _enter_or_assert_strategy (env : Env) (strategy : Strategy)
  : result Env :=
  if negb (has_strategy env) then Ok (enter_scope strategy env)
  else rbind (_assert_strategy env strategy) (fun _ => Ok env).

Definition _assert_replica_context (env : Env) (strategy : Strategy)
  : result unit :=
  match get_replica_context env with
  | None =>
      Raise (RuntimeError
        "Replica-local variables may only be assigned in a replica context.")
  | Some replica_context =>
      if negb (is_strategy (rc_strategy replica_context) strategy) then
        Raise (RuntimeError
          "Replica-local variables may only be assigned in a replica context.")
      else Ok tt
  end.

(* ------------------------------------------------------------------ *)
(** ** Python values and the object store *)

Definition oid := nat.

(** The classes of [values.py] (host side), physical variables
    ([cls_ResourceVariable]) and every other Python object ([cls_object]:
    tensors, ops, strings, numbers, ...). *)
Inductive pyclass : Type :=
| cls_object
| cls_ResourceVariable
| cls_DistributedValues
| cls_DistributedDelegate
| cls_PerReplica
| cls_Mirrored
| cls_DistributedVariable
| cls_MirroredVariable
| cls_SyncOnReadVariable.

Definition pyclass_eqb (a b : pyclass) : bool :=
  match a, b with
  | cls_object, cls_object
  | cls_ResourceVariable, cls_ResourceVariable
  | cls_DistributedValues, cls_DistributedValues
  | cls_DistributedDelegate, cls_DistributedDelegate
  | cls_PerReplica, cls_PerReplica
  | cls_Mirrored, cls_Mirrored
  | cls_DistributedVariable, cls_DistributedVariable
  | cls_MirroredVariable, cls_MirroredVariable
  | cls_SyncOnReadVariable, cls_SyncOnReadVariable => true
  | _, _ => false
  end.

(** The proper base classes of each class, from the [class] statements. *)
Definition bases (c : pyclass) : list pyclass :=
  match c with
  | cls_object => []
  | cls_ResourceVariable => []
  | cls_DistributedValues => []
  | cls_DistributedDelegate => [cls_DistributedValues]
  | cls_PerReplica => [cls_DistributedValues]
  | cls_Mirrored => [cls_DistributedDelegate; cls_DistributedValues]
  | cls_DistributedVariable => [cls_DistributedDelegate; cls_DistributedValues]
  | cls_MirroredVariable =>
      [cls_DistributedVariable; cls_Mirrored; cls_DistributedDelegate;
       cls_DistributedValues]
  | cls_SyncOnReadVariable =>
      [cls_DistributedVariable; cls_DistributedDelegate; cls_DistributedValues]
  end.

Definition issubclass (c d : pyclass) : bool :=
  pyclass_eqb c d || existsb (pyclass_eqb d) (bases c).

Inductive VariableAggregation : Type :=
| NONE | SUM | MEAN | ONLY_FIRST_REPLICA.

Definition VariableAggregation_eqb (a b : VariableAggregation) : bool :=
  match a, b with
  | NONE, NONE | SUM, SUM | MEAN, MEAN
  | ONLY_FIRST_REPLICA, ONLY_FIRST_REPLICA => true
  | _, _ => false
  end.

Inductive DType : Type :=
| float32 | float64 | int32 | int64.

Definition is_floating (d : DType) : bool :=
  match d with
  | float32 | float64 => true
  | int32 | int64 => false
  end.

(** Dictionary keys. *)
Inductive key : Type :=
| KStr (s : string)
| KInt (i : Z).

Definition key_eqb (a b : key) : bool :=
  match a, b with
  | KStr s, KStr t => String.eqb s t
  | KInt i, KInt j => Z.eqb i j
  | _, _ => false
  end.

(** The kinds of structured value [regroup] and [nest] look into.  A dict
    is its key sequence together with the sequence of its values, in the
    same order. *)
Inductive node_kind : Type :=
| NList
| NTuple
| NNamedTuple (type_name : string)
| NDict (keys : list key).

Unset Elimination Schemes.
Inductive value : Type :=
| VRef (o : oid)
| VNode (k : node_kind) (children : list value).
Set Elimination Schemes.

(** A store object.  Every object carries the attributes that some class
    of the model reads; an attribute a Python object would not have is
    [None] where its absence can be observed. *)
Record object : Type := {
  ob_class : pyclass;
  ob_alive : bool;                         (* false once destroyed *)
  _values : list value;                    (* DistributedValues._values *)
  _distributed_container : option oid;     (* a weakref, when set *)
  _distribute_strategy : Strategy;
  _aggregation : VariableAggregation;
  ob_device : option string;
  ob_dtype : DType;
  ob_tensor : Qc;                          (* current content *)
  ob_handle : option nat
}.

Definition heap := list object.

Definition dead_object : object :=
  {| ob_class := cls_object; ob_alive := false; _values := [];
     _distributed_container := None;
     _distribute_strategy :=
       {| strategy_id := 0; strategy_num_replicas_in_sync := 0 |};
     _aggregation := NONE; ob_device := None; ob_dtype := float32;
     ob_tensor := 0%Qc; ob_handle := None |}.

Definition deref (h : heap) (o : oid) : object := nth o h dead_object.

Fixpoint update (h : heap) (o : oid) (ob : object) : heap :=
  match h, o with
  | [], _ => []
  | _ :: h', O => ob :: h'
  | x :: h', S o' => x :: update h' o' ob
  end.

Definition isinstance (ob : object) (c : pyclass) : bool :=
  issubclass (ob_class ob) c.

(** [isinstance(x, c)] on a value: a list, tuple or dict is an instance
    of none of the modelled classes. *)
Definition isinstance_v (h : heap) (x : value) (c : pyclass) : bool :=
  match x with
  | VRef o => isinstance (deref h o) c
  | VNode _ _ => false
  end.

(** Calling a weak reference: the referent, or [None] once it is gone. *)
Definition weakref_call (h : heap) (w : oid) : option oid :=
  if ob_alive (deref h w) then Some w else None.

(* ------------------------------------------------------------------ *)
(** ** The store-passing monad *)

Definition M (A : Type) : Type := heap -> result A * heap.

Definition ret {A} (a : A) : M A := fun h => (Ok a, h).

Definition raise {A} (e : exn) : M A := fun h => (Raise e, h).

Definition bind {A B} (m : M A) (k : A -> M B) : M B :=
  fun h =>
    match m h with
    | (Ok a, h') => k a h'
    | (Raise e, h') => (Raise e, h')
    end.

Definition lift {A} (r : result A) : M A := fun h => (r, h).

Definition read {A} (f : heap -> A) : M A := fun h => (Ok (f h), h).

(** Allocation of a fresh object at the end of the store. *)
Definition alloc (ob : object) : M value :=
  fun h => (Ok (VRef (List.length h)), h ++ [ob]).

Notation "x <- c1 ;; c2" := (bind c1 (fun x => c2))
  (at level 61, c1 at next level, right associativity).
Notation "c1 ;;; c2" := (bind c1 (fun _ => c2))
  (at level 61, right associativity).

(** [for x in xs: f(x)], stopping at the first exception. *)
Fixpoint for_each {A} (f : A -> M unit) (xs : list A) : M unit :=
  match xs with
  | [] => ret tt
  | x :: xs' => f x ;;; for_each f xs'
  end.

(** An object of class [c] with the given [_values] and nothing else. *)
Definition new_container (c : pyclass) (values : list value) : object :=
  {| ob_class := c; ob_alive := true; _values := values;
     _distributed_container := None;
     _distribute_strategy :=
       {| strategy_id := 0; strategy_num_replicas_in_sync := 0 |};
     _aggregation := NONE; ob_device := None; ob_dtype := float32;
     ob_tensor := 0%Qc; ob_handle := None |}.

(** A tensor object holding [t]. *)
Definition new_tensor (t : Qc) (d : DType) (dev : option string) : object :=
  {| ob_class := cls_object; ob_alive := true; _values := [];
     _distributed_container := None;
     _distribute_strategy :=
       {| strategy_id := 0; strategy_num_replicas_in_sync := 0 |};
     _aggregation := NONE; ob_device := dev; ob_dtype := d;
     ob_tensor := t; ob_handle := None |}.

(** Attribute reads on a value. *)
Definition getattr_device (h : heap) (x : value) : result string :=
  match x with
  | VRef o => match ob_device (deref h o) with
              | Some d => Ok d
              | None => Raise AttributeError
              end
  | VNode _ _ => Raise AttributeError
  end.

Definition getattr_handle (h : heap) (x : value) : result nat :=
  match x with
  | VRef o => match ob_handle (deref h o) with
              | Some d => Ok d
              | None => Raise AttributeError
              end
  | VNode _ _ => Raise AttributeError
  end.

Definition getattr_dtype (h : heap) (x : value) : result DType :=
  match x with
  | VRef o => Ok (ob_dtype (deref h o))
  | VNode _ _ => Raise AttributeError
  end.

(* ------------------------------------------------------------------ *)
(** ** Collaborators of the strategy and of the op library *)

(** Modelled from the spec: [array_ops.identity] yields a fresh tensor
    holding the content of its argument, an immutable snapshot. *)
Definition array_ops_identity (x : value) : M value :=
  match x with
  | VRef o =>
      ob <- read (fun h => deref h o) ;;
      alloc (new_tensor (ob_tensor ob) (ob_dtype ob) (ob_device ob))
  | VNode _ _ => raise (TypeError "identity of a non-tensor")
  end.

Inductive ReduceOp : Type :=
| ReduceOp_SUM
| ReduceOp_MEAN.

(** Modelled from the spec: [ReduceOp.from_variable_aggregation] maps the
    aggregation policies SUM and MEAN to the reduce op of the same name and
    rejects the others. *)
Definition from_variable_aggregation (a : VariableAggregation)
  : result ReduceOp :=
  match a with
  | SUM => Ok ReduceOp_SUM
  | MEAN => Ok ReduceOp_MEAN
  | _ => Raise (ValueError "Could not convert from VariableAggregation")
  end.

Definition element_tensor (h : heap) (x : value) : Qc :=
  match x with
  | VRef o => ob_tensor (deref h o)
  | VNode _ _ => 0%Qc
  end.

Definition sum_tensors (h : heap) (xs : list value) : Qc :=
  fold_right (fun x acc => (element_tensor h x + acc)%Qc) 0%Qc xs.

Definition Qc_of_nat (n : nat) : Qc := Q2Qc (inject_Z (Z.of_nat n)).

(** Modelled from the spec: the cross-device reduce of the owning
    strategy combines the current contents of the physical elements, as
    their sum (SUM) or as their sum divided by their number (MEAN). *)
Definition reduced_tensor (op : ReduceOp) (h : heap) (xs : list value) : Qc :=
  match op with
  | ReduceOp_SUM => sum_tensors h xs
  | ReduceOp_MEAN => (sum_tensors h xs / Qc_of_nat (List.length xs))%Qc
  end.

Definition strategy_reduce (op : ReduceOp) (self : oid) : M value :=
  ob <- read (fun h => deref h self) ;;
  t <- read (fun h => reduced_tensor op h (_values ob)) ;;
  alloc (new_tensor t (ob_dtype ob) None).

(* ------------------------------------------------------------------ *)
(** ** class DistributedValues *)

Definition NotImplemented_cross_replica : string :=
  "This method should be overridden by sub-classes which support cross-replica accesses.".

(** [DistributedValues._get_cross_replica] *)
Definition DistributedValues__get_cross_replica (self : oid) : M value :=
  raise (NotImplementedError NotImplemented_cross_replica).

(** [DistributedValues.primary] *)
Definition primary (h : heap) (self : oid) : result value :=
  py_getitem (_values (deref h self)) 0.

(** The loop of [_get_closest] over [self._values]. *)
Fixpoint find_on_device (env : Env) (h : heap) (current : string)
  (values : list value) : result (option value) :=
  match values with
  | [] => Ok None
  | v :: rest =>
      rbind (getattr_device h v) (fun d =>
        if String.eqb (canonicalize env d) current then Ok (Some v)
        else find_on_device env h current rest)
  end.

(** [DistributedValues._get_closest] *)
Definition _get_closest (env : Env) (h : heap) (self : oid) : result value :=
  match _get_current_replica_id_as_int env with
  | None =>
      let current_device_ := canonicalize env (current_device env) in
      rbind (find_on_device env h current_device_ (_values (deref h self)))
        (fun found =>
           match found with
           | Some v => Ok v
           | None => primary h self
           end)
  | Some replica_id => py_getitem (_values (deref h self)) replica_id
  end.

(** [Mirrored._get_cross_replica] *)
Definition Mirrored__get_cross_replica (env : Env) (self : oid) : M value :=
  fun h => (_get_closest env h self, h).

(** [MirroredVariable._get_cross_replica] *)
Definition MirroredVariable__get_cross_replica (env : Env) (self : oid)
  : M value :=
  x <- Mirrored__get_cross_replica env self ;;
  array_ops_identity x.

(** [SyncOnReadVariable._get_cross_replica] *)
Definition SyncOnReadVariable__get_cross_replica (env : Env) (self : oid)
  : M value :=
  ob <- read (fun h => deref h self) ;;
  if VariableAggregation_eqb (_aggregation ob) ONLY_FIRST_REPLICA then
    fun h => (primary h self, h)
  else
    _ <- lift (_enter_or_assert_strategy env (_distribute_strategy ob)) ;;
    op <- lift (from_variable_aggregation (_aggregation ob)) ;;
    strategy_reduce op self.

(** The method [_get_cross_replica] found on the class of [self]: the
    first definition along the method resolution order. *)
Definition _get_cross_replica (env : Env) (self : oid) : M value :=
  fun h =>
    match ob_class (deref h self) with
    | cls_Mirrored => Mirrored__get_cross_replica env self h
    | cls_MirroredVariable => MirroredVariable__get_cross_replica env self h
    | cls_SyncOnReadVariable => SyncOnReadVariable__get_cross_replica env self h
    | _ => DistributedValues__get_cross_replica self h
    end.


(** [DistributedValues.get] *)
Definition get (env : Env) (self : oid) : M value :=
  match _get_current_replica_id_as_int env with
  | None => _get_cross_replica env self
  | Some replica_id =>
      fun h => (py_getitem (_values (deref h self)) replica_id, h)
  end.

(* ------------------------------------------------------------------ *)
(** ** class PerReplicaSpec *)

(** [PerReplicaSpec._to_components] *)
Definition _to_components (env : Env) (h : heap) (value_ : oid)
  : result (list value) :=
  match get_replica_context env with
  | Some replica_context =>
      if (1 <? num_replicas_in_sync replica_context)%Z then
        Raise (ValueError
          "Flattening a PerReplica to components is not supported in replica context.")
      else Ok (_values (deref h value_))
  | None => Ok (_values (deref h value_))
  end.

(* ------------------------------------------------------------------ *)
(** ** class DistributedVariable *)

Definition handle_error : exn :=
  ValueError
    "`handle` is not available outside the replica context or a `tf.distribute.Strategy.update()` call.".

(** [DistributedVariable.handle] *)
Definition handle (env : Env) (h : heap) (self : oid) : result nat :=
  match _get_current_replica_id_as_int env with
  | None => Raise handle_error
  | Some replica_id =>
      rbind (py_getitem (_values (deref h self)) replica_id)
            (getattr_handle h)
  end.

(** [DistributedVariable.dtype] *)
Definition dtype (h : heap) (self : oid) : result DType :=
  rbind (primary h self) (getattr_dtype h).

(* ------------------------------------------------------------------ *)
(** ** Concrete stores and contexts used by the examples *)

Definition Qc_of_Z (z : Z) : Qc := Q2Qc (inject_Z z).

Definition strategy_A : Strategy :=
  {| strategy_id := 1; strategy_num_replicas_in_sync := 2 |}.

Definition strategy_B : Strategy :=
  {| strategy_id := 2; strategy_num_replicas_in_sync := 2 |}.

Definition env_default : Env :=
  {| mode := DefaultReplicaThreadMode; update_replica_id := None;
     current_device := "/device:CPU:0"; canonicalize := fun d => d |}.

Definition env_cross (s : Strategy) : Env :=
  {| mode := CrossReplicaThreadMode s; update_replica_id := None;
     current_device := "/device:CPU:0"; canonicalize := fun d => d |}.

Definition env_update (s : Strategy) (i : Z) : Env :=
  {| mode := CrossReplicaThreadMode s; update_replica_id := Some i;
     current_device := "/device:CPU:0"; canonicalize := fun d => d |}.

Definition env_replica (s : Strategy) (i : Z) : Env :=
  {| mode := InReplicaThreadMode s (ReplicaIdInt i); update_replica_id := None;
     current_device := "/device:CPU:0"; canonicalize := fun d => d |}.

(** A physical variable on [dev] holding [t], element of container [c]. *)
Definition physical_variable (dev : string) (d : DType) (t : Qc) (hd : nat)
  (c : option oid) : object :=
  {| ob_class := cls_ResourceVariable; ob_alive := true; _values := [];
     _distributed_container := c;
     _distribute_strategy :=
       {| strategy_id := 0; strategy_num_replicas_in_sync := 0 |};
     _aggregation := NONE; ob_device := Some dev; ob_dtype := d;
     ob_tensor := t; ob_handle := Some hd |}.

(** A distributed variable of class [c] over [values]. *)
Definition distributed_variable (c : pyclass) (s : Strategy)
  (a : VariableAggregation) (values : list value) : object :=
  {| ob_class := c; ob_alive := true; _values := values;
     _distributed_container := None;
     _distribute_strategy := s; _aggregation := a; ob_device := None;
     ob_dtype := float32; ob_tensor := 0%Qc; ob_handle := None |}.

(** Two physical variables (addresses 0 and 1) holding [t], and at
    address 2 the distributed variable of class [c] they belong to. *)
Definition heap_variable (c : pyclass) (a : VariableAggregation) (d : DType)
  (t : Qc) : heap :=
  [ physical_variable "/device:GPU:0" d t 10 (Some 2);
    physical_variable "/device:GPU:1" d t 11 (Some 2);
    distributed_variable c strategy_A a [VRef 0; VRef 1] ].

(** Two plain tensors (addresses 0 and 1) and at address 2 a container of
    class [c] over them. *)
Definition heap_container (c : pyclass) : heap :=
  [ new_tensor (Qc_of_Z 1) float32 (Some "/device:GPU:0");
    new_tensor (Qc_of_Z 5) float32 (Some "/device:GPU:1");
    new_container c [VRef 0; VRef 1] ].

(* ------------------------------------------------------------------ *)
(** ** regroup, select_replica, select_replica_mirrored, value_container *)

(** [hasattr(x, "_distributed_container")].  The attribute is found only
    when it was set on the object itself: [DistributedDelegate.__getattr__]
    does not forward this name to the components. *)
Definition hasattr__distributed_container (h : heap) (x : value) : bool :=
  match x with
  | VRef o => match _distributed_container (deref h o) with
              | Some _ => true
              | None => false
              end
  | VNode _ _ => false
  end.

(** [x._distributed_container()]: AttributeError without the attribute,
    otherwise the container or [None]. *)
Definition call__distributed_container (h : heap) (x : value)
  : result (option oid) :=
  match x with
  | VRef o => match _distributed_container (deref h o) with
              | Some w => Ok (weakref_call h w)
              | None => Raise AttributeError
              end
  | VNode _ _ => Raise AttributeError
  end.

(** [v is v0] for a leaf [v0]: a list, tuple or dict is another object. *)
Definition is_same (v v0 : value) : bool :=
  match v, v0 with
  | VRef a, VRef b => Nat.eqb a b
  | _, _ => false
  end.

Definition assert (b : bool) : result unit :=
  if b then Ok tt else Raise AssertionError.

Fixpoint mapM {A B} (f : A -> result B) (xs : list A) : result (list B) :=
  match xs with
  | [] => Ok []
  | x :: xs' =>
      rbind (f x) (fun y => rbind (mapM f xs') (fun ys => Ok (y :: ys)))
  end.

Fixpoint for_all (f : value -> result unit) (xs : list value) : result unit :=
  match xs with
  | [] => Ok tt
  | x :: xs' => rbind (f x) (fun _ => for_all f xs')
  end.

(** [v[i]] on a list or tuple. *)
Definition item (i : nat) (v : value) : result value :=
  match v with
  | VNode (NDict _) _ => Raise KeyError
  | VNode _ children =>
      match nth_error children i with
      | Some c => Ok c
      | None => Raise IndexError
      end
  | VRef _ => Raise (TypeError "object is not subscriptable")
  end.

Fixpoint index_of (k : key) (keys : list key) : option nat :=
  match keys with
  | [] => None
  | k' :: keys' =>
      if key_eqb k k' then Some 0
      else match index_of k keys' with
           | Some n => Some (S n)
           | None => None
           end
  end.

(** [v[key]] on a dict. *)
Definition dict_item (k : key) (v : value) : result value :=
  match v with
  | VNode (NDict keys) children =>
      match index_of k keys with
      | Some i => match nth_error children i with
                  | Some c => Ok c
                  | None => Raise KeyError
                  end
      | None => Raise KeyError
      end
  | VNode _ _ => Raise (TypeError "indices must be integers")
  | VRef _ => Raise (TypeError "object is not subscriptable")
  end.

Definition is_list (v : value) : bool :=
  match v with VNode NList _ => true | _ => false end.

Definition is_tuple (v : value) : bool :=
  match v with
  | VNode NTuple _ | VNode (NNamedTuple _) _ => true
  | _ => false
  end.

Definition is_dict (v : value) : bool :=
  match v with VNode (NDict _) _ => true | _ => false end.

Definition len (v : value) : nat :=
  match v with
  | VNode _ children => List.length children
  | VRef _ => 0
  end.

Definition keys_of (v : value) : list key :=
  match v with
  | VNode (NDict keys) _ => keys
  | _ => []
  end.

(** [set(a) == set(b)] on key sequences. *)
Definition same_key_set (a b : list key) : bool :=
  forallb (fun k => existsb (key_eqb k) b) a &&
  forallb (fun k => existsb (key_eqb k) a) b.

Definition is_str (k : key) : bool :=
  match k with KStr _ => true | KInt _ => false end.

(** The checks [regroup] makes on [values[1:]] for a structured [v0]. *)
Definition check_structure (k0 : node_kind) (n0 : nat) (rest : list value)
  : result unit :=
  match k0 with
  | NList =>
      for_all (fun v => rbind (assert (is_list v))
                          (fun _ => assert (Nat.eqb (len v) n0))) rest
  | NTuple | NNamedTuple _ =>
      for_all (fun v => rbind (assert (is_tuple v))
                          (fun _ => assert (Nat.eqb (len v) n0))) rest
  | NDict keys0 =>
      for_all (fun v => rbind (assert (is_dict v))
                          (fun _ => assert (same_key_set (keys_of v) keys0)))
              rest
  end.

(** How the i-th child of [v0] is read off every replica's value: by
    position in a list or tuple, by key in a dict. *)
Definition accessors (k0 : node_kind) (n0 : nat)
  : list (value -> result value) :=
  match k0 with
  | NDict keys0 => map dict_item keys0
  | _ => map item (seq 0 n0)
  end.

(** Construction of the regrouped container: for a dict, [type(v0)] is
    called with the regrouped entries as keyword arguments, and keywords
    must be strings. *)
Definition rebuild (k0 : node_kind) (children : list value) : result value :=
  match k0 with
  | NDict keys0 =>
      if forallb is_str keys0 then Ok (VNode k0 children)
      else Raise (TypeError "keywords must be strings")
  | _ => Ok (VNode k0 children)
  end.

(** The leaf case of [regroup]. *)
Definition regroup_leaf (wrap_class : list value -> M value)
  (v0 : value) (rest : list value) : M value :=
  fun h =>
    let same_id := forallb (fun v => is_same v v0) rest in
    if same_id && (isinstance_v h v0 cls_DistributedVariable
                   || negb (hasattr__distributed_container h v0)) then
      (Ok v0, h)
    else if hasattr__distributed_container h v0 then
      match
        rbind (assert (negb (isinstance_v h v0 cls_MirroredVariable)))
          (fun _ =>
        rbind (call__distributed_container h v0) (fun distributed_container =>
        match distributed_container with
        | None => Raise AssertionError
        | Some c =>
            rbind (for_all (fun v =>
                     rbind (call__distributed_container h v) (fun c' =>
                       match c' with
                       | Some c'' => assert (Nat.eqb c c'')
                       | None => Raise AssertionError
                       end)) rest)
                  (fun _ => Ok (VRef c))
        end))
      with
      | Ok r => (Ok r, h)
      | Raise e => (Raise e, h)
      end
    else wrap_class (v0 :: rest) h.

(** [regroup(values, wrap_class)] with [values = (v0,) + rest]. *)
Fixpoint regroup_from (wrap_class : list value -> M value)
  (v0 : value) (rest : list value) {struct v0} : M value :=
  match v0 with
  | VNode k0 children0 =>
      lift (check_structure k0 (List.length children0) rest) ;;;
      regrouped <-
        (fix loop (cs : list value) (accs : list (value -> result value))
           {struct cs} : M (list value) :=
           match cs, accs with
           | c :: cs', acc :: accs' =>
               column <- lift (mapM acc rest) ;;
               r <- regroup_from wrap_class c column ;;
               rs <- loop cs' accs' ;;
               ret (r :: rs)
           | _, _ => ret []
           end) children0 (accessors k0 (List.length children0)) ;;
      lift (rebuild k0 regrouped)
  | VRef _ => regroup_leaf wrap_class v0 rest
  end.

(** [PerReplica(values)] and [Mirrored(values)]. *)
Definition PerReplica (values : list value) : M value :=
  alloc (new_container cls_PerReplica values).


Definition regroup (values : list value)
  (wrap_class : list value -> M value) : M value :=
  match values with
  | v0 :: rest => regroup_from wrap_class v0 rest
  | [] => raise IndexError
  end.

(** Modelled from the spec: [nest.map_structure] walks a structured value
    and rebuilds the same nesting with the function applied at each leaf,
    in order; an exception of the function ends the walk. *)
Fixpoint map_structure (f : value -> result value) (structured : value)
  : result value :=
  match structured with
  | VRef _ => f structured
  | VNode k children =>
      rbind ((fix walk (cs : list value) : result (list value) :=
                match cs with
                | [] => Ok []
                | c :: cs' =>
                    rbind (map_structure f c) (fun r =>
                    rbind (walk cs') (fun rs => Ok (r :: rs)))
                end) children)
            (fun rs => Ok (VNode k rs))
  end.

Definition values_of (h : heap) (x : value) : list value :=
  match x with
  | VRef o => _values (deref h o)
  | VNode _ _ => []
  end.

(** The local function [_get] of [select_replica]. *)
Definition _get (h : heap) (replica_id : Z) (x : value) : result value :=
  if isinstance_v h x cls_DistributedVariable
     || negb (isinstance_v h x cls_DistributedValues)
  then Ok x
  else py_getitem (values_of h x) replica_id.

Definition select_replica (h : heap) (replica_id : Z) (structured : value)
  : result value :=
  map_structure (_get h replica_id) structured.

Definition mirrored_error : exn :=
  TypeError "Expected value to be mirrored across replicas".

(** The local function [_get_mirrored] of [select_replica_mirrored]. *)
Definition _get_mirrored (h : heap) (replica_id : Z) (x : value)
  : result value :=
  if isinstance_v h x cls_DistributedValues then
    if negb (isinstance_v h x cls_Mirrored) then
      Raise mirrored_error
    else py_getitem (values_of h x) replica_id
  else Ok x.

Definition select_replica_mirrored (h : heap) (replica_id : Z)
  (structured : value) : result value :=
  map_structure (_get_mirrored h replica_id) structured.

(** [value_container] *)
Definition value_container (h : heap) (val : value) : result value :=
  if hasattr__distributed_container h val
     && negb (isinstance_v h val cls_DistributedVariable)
  then
    rbind (call__distributed_container h val) (fun container =>
      match container with
      | Some c => Ok (VRef c)
      | None => Ok val
      end)
  else Ok val.

(* ------------------------------------------------------------------ *)
(** ** Physical variables and numeric kernels *)

(** The three update functions [f] handed to [_assign_func]: the lambdas
    that call [var.assign], [var.assign_add] and [var.assign_sub]. *)
Inductive assign_op : Type :=
| assign_fn
| assign_add_fn
| assign_sub_fn.

Definition apply_assign (f : assign_op) (old t : Qc) : Qc :=
  match f with
  | assign_fn => t
  | assign_add_fn => (old + t)%Qc
  | assign_sub_fn => (old - t)%Qc
  end.

Definition set_tensor (ob : object) (t : Qc) : object :=
  {| ob_class := ob_class ob; ob_alive := ob_alive ob; _values := _values ob;
     _distributed_container := _distributed_container ob;
     _distribute_strategy := _distribute_strategy ob;
     _aggregation := _aggregation ob; ob_device := ob_device ob;
     ob_dtype := ob_dtype ob; ob_tensor := t; ob_handle := ob_handle ob |}.

(** Modelled from the spec: the physical element primitives [assign],
    [assign_add] and [assign_sub] replace the content of a physical
    variable by the value, the sum or the difference.  Other objects have
    no such method. *)
Definition variable_update (f : assign_op) (variable : value) (tensor : Qc)
  : M unit :=
  fun h =>
    match variable with
    | VRef o =>
        let ob := deref h o in
        if pyclass_eqb (ob_class ob) cls_ResourceVariable then
          (Ok tt, update h o (set_tensor ob (apply_assign f (ob_tensor ob) tensor)))
        else (Raise AttributeError, h)
    | VNode _ _ => (Raise AttributeError, h)
    end.

Definition _assign_on_device (device : string) (variable : value)
  (tensor : Qc) : M unit :=
  variable_update assign_fn variable tensor.

Definition _assign_add_on_device (device : string) (variable : value)
  (tensor : Qc) : M unit :=
  variable_update assign_add_fn variable tensor.

Definition _assign_sub_on_device (device : string) (variable : value)
  (tensor : Qc) : M unit :=
  variable_update assign_sub_fn variable tensor.

(** [args[0]] *)
Definition first_arg (args : list value) : result value :=
  match args with
  | a :: _ => Ok a
  | [] => Raise IndexError
  end.

(** The call of an update function [f] on [var] and the positional
    arguments. *)
Definition call_f (f : assign_op) (var : value) (args : list value)
  : M value :=
  match args with
  | a :: _ =>
      t <- read (fun h => element_tensor h a) ;;
      variable_update f var t ;;;
      ret var
  | [] => raise (TypeError "missing 1 required positional argument")
  end.

(** [tensor / n] and [math_ops.cast] in exact arithmetic: a cast to a
    floating type keeps the number, a cast to an integer type truncates. *)
Definition truediv (t : Qc) (n : nat) : Qc := (t / Qc_of_nat n)%Qc.

Definition math_ops_cast (t : Qc) (d : DType) : Qc :=
  if is_floating d then t
  else Qc_of_Z (Z.quot (Qnum (this t)) (Zpos (Qden (this t)))).

(** [control_flow_ops.group(tuple(g(v.device, v, tensor) for v in values))] *)
Definition group_on_devices (g : string -> value -> Qc -> M unit)
  (tensor : Qc) (values : list value) : M unit :=
  for_each (fun v =>
              device <- (fun h => (getattr_device h v, h)) ;;
              g device v tensor) values.

(* ------------------------------------------------------------------ *)
(** ** The strategy collaborator *)

(** The operations of [strategy] and [strategy.extended] that the update
    protocol calls, for variables of type [V].  They are parameters of the
    development. *)
Record StrategyExtended (V : Type) : Type := {
  extended_update : V -> assign_op -> list value -> M value;
  extended_reduce_to : ReduceOp -> value -> V -> M value;
  extended_broadcast_to : value -> V -> M value;
  experimental_local_results : value -> M (list value)
}.

(** [_apply_aggregation] *)
Definition _apply_aggregation {V} (strategy : StrategyExtended V)
  (value_ : value) (aggregation : VariableAggregation) (destinations : V)
  : M value :=
  if VariableAggregation_eqb aggregation ONLY_FIRST_REPLICA then
    results <- experimental_local_results strategy value_ ;;
    first <- lift (py_getitem results 0) ;;
    extended_broadcast_to strategy first destinations
  else
    reduce_op <- lift (from_variable_aggregation aggregation) ;;
    extended_reduce_to strategy reduce_op value_ destinations.

Definition _aggregation_error_msg (variable_type : string) : string :=
  "You must specify an aggregation method to update a " ++ variable_type ++
  " in Replica Context. You can do so by passing " ++
  "an explicit value for argument `aggregation` to tf.Variable(..)." ++
  "e.g. `tf.Variable(..., aggregation=tf.VariableAggregation.SUM)`" ++
  "`tf.VariableAggregation` lists the possible aggregation methods." ++
  "This is required because " ++ variable_type ++ " should always be " ++
  "kept in sync. When updating them or assigning to them in a " ++
  "replica context, we automatically try to aggregate the values " ++
  "before updating the variable. For this aggregation, we need to " ++
  "know the aggregation method. " ++
  "Another alternative is to not try to update such " ++
  variable_type ++ " in replica context, but in cross replica " ++
  "context. You can enter cross replica context by calling " ++
  "`tf.distribute.get_replica_context().merge_call(merge_fn, ..)`." ++
  "Inside `merge_fn`, you can then update the " ++ variable_type ++ " " ++
  "using `tf.distribute.StrategyExtended.update()`.".

(** Modelled from the spec: [merge_call] is the rendezvous of the replicas
    of the sync group.  Every replica contributes the arguments of its own
    call ([merge_args], in replica order); they are regrouped, and
    [merge_fn] runs once on the regrouped arguments. *)
Definition merge_call {A} (merge_args : list (list value))
  (merge_fn : value -> list value -> M A) : M A :=
  merged <- regroup (map (VNode NTuple) merge_args) PerReplica ;;
  match merged with
  | VNode _ (value_ :: other_args) => merge_fn value_ other_args
  | _ => raise (TypeError "merge_fn() missing 1 required positional argument")
  end.

(* ------------------------------------------------------------------ *)
(** ** class MirroredVariable *)

Module MirroredVariable.

Definition precision_error : exn :=
  ValueError
    ("Cannot update non-float variables with " ++
     "tf.VariableAggregation.MEAN aggregation in replica context. " ++
     "Either change the variable dtype to float or update it in " ++
     "cross-replica context.").

(** The local function [merge_fn] of [_assign_func]. *)
Definition merge_fn (strategy : StrategyExtended oid) (self : oid)
  (f : assign_op) (value_ : value) (other_args : list value) : M value :=
  ob <- read (fun h => deref h self) ;;
  guard <-
    (if VariableAggregation_eqb (_aggregation ob) MEAN then
       d <- (fun h => (dtype h self, h)) ;;
       if negb (is_floating d) then
         read (fun h => isinstance_v h value_ cls_PerReplica)
       else ret false
     else ret false) ;;
  if (guard : bool) then raise precision_error
  else
    v <- _apply_aggregation strategy value_ (_aggregation ob) self ;;
    extended_update strategy self f (v :: other_args).

Definition _assign_func (ext : Strategy -> StrategyExtended oid) (env : Env)
  (self : oid) (f : assign_op) (args : list value)
  (merge_args : list (list value)) : M value :=
  ob <- read (fun h => deref h self) ;;
  env' <- lift (_enter_or_assert_strategy env (_distribute_strategy ob)) ;;
  if in_cross_replica_context env' then
    match get_update_replica_id env' with
    | Some update_replica_id =>
        var <- lift (py_getitem (_values ob) update_replica_id) ;;
        call_f f var args
    | None =>
        extended_update (ext (_distribute_strategy ob)) self f args
    end
  else
    lift (_assert_replica_context env' (_distribute_strategy ob)) ;;;
    if VariableAggregation_eqb (_aggregation ob) NONE then
      raise (ValueError (_aggregation_error_msg "MirroredVariable"))
    else
      merge_call merge_args
        (merge_fn (ext (_distribute_strategy ob)) self f).

Definition assign_sub ext env self args merge_args : M value :=
  _assign_func ext env self assign_sub_fn args merge_args.

Definition assign_add ext env self args merge_args : M value :=
  _assign_func ext env self assign_add_fn args merge_args.

Definition assign ext env self args merge_args : M value :=
  _assign_func ext env self assign_fn args merge_args.

End MirroredVariable.

(* ------------------------------------------------------------------ *)
(** ** class AggregatingVariable *)

Module AggregatingVariable.

Record t : Type := {
  _distribute_strategy : Strategy;
  _v : value;
  _aggregation : VariableAggregation
}.

Definition merge_fn (strategy : StrategyExtended t) (self : t)
  (f : assign_op) (value_ : value) (other_args : list value) : M value :=
  v <- _apply_aggregation strategy value_ (_aggregation self) self ;;
  extended_update strategy self f (v :: other_args).

Definition _assign_func (ext : Strategy -> StrategyExtended t) (env : Env)
  (self : t) (f : assign_op) (args : list value)
  (merge_args : list (list value)) : M value :=
  env' <- lift (_enter_or_assert_strategy env (_distribute_strategy self)) ;;
  if in_cross_replica_context env' then
    match get_update_replica_id env' with
    | Some _ => call_f f (_v self) args
    | None =>
        extended_update (ext (_distribute_strategy self)) self f args
    end
  else
    match get_replica_context env' with
    | None => raise AssertionError
    | Some replica_context =>
        if VariableAggregation_eqb (_aggregation self) NONE then
          raise (ValueError (_aggregation_error_msg "AggregatingVariable"))
        else
          merge_call merge_args
            (merge_fn (ext (_distribute_strategy self)) self f)
    end.

Definition assign_sub ext env self args merge_args : M value :=
  _assign_func ext env self assign_sub_fn args merge_args.

Definition assign_add ext env self args merge_args : M value :=
  _assign_func ext env self assign_add_fn args merge_args.

Definition assign ext env self args merge_args : M value :=
  _assign_func ext env self assign_fn args merge_args.

End AggregatingVariable.

(* ------------------------------------------------------------------ *)
(** ** class SyncOnReadVariable and its saveable *)

Module SyncOnReadVariable.

Definition sum_error (method : string) : exn :=
  ValueError
    ("SyncOnReadVariable does not support `" ++ method ++ "` in " ++
     "cross-replica context when aggregation is set to " ++
     "`tf.VariableAggregation.SUM`.").

Definition assign_sub (env : Env) (self : oid) (args : list value)
  : M unit :=
  ob <- read (fun h => deref h self) ;;
  env' <- lift (_enter_or_assert_strategy env (_distribute_strategy ob)) ;;
  if in_cross_replica_context env' then
    if VariableAggregation_eqb (_aggregation ob) SUM then
      raise (sum_error "assign_sub")
    else
      a <- lift (first_arg args) ;;
      tensor <- read (fun h => element_tensor h a) ;;
      group_on_devices _assign_sub_on_device tensor (_values ob)
  else
    var <- get env' self ;;
    call_f assign_sub_fn var args ;;; ret tt.

Definition assign_add (env : Env) (self : oid) (args : list value)
  : M unit :=
  ob <- read (fun h => deref h self) ;;
  env' <- lift (_enter_or_assert_strategy env (_distribute_strategy ob)) ;;
  if in_cross_replica_context env' then
    if VariableAggregation_eqb (_aggregation ob) SUM then
      raise (sum_error "assign_add")
    else
      a <- lift (first_arg args) ;;
      tensor <- read (fun h => element_tensor h a) ;;
      group_on_devices _assign_add_on_device tensor (_values ob)
  else
    var <- get env' self ;;
    call_f assign_add_fn var args ;;; ret tt.

Definition assign (env : Env) (self : oid) (args : list value) : M unit :=
  ob <- read (fun h => deref h self) ;;
  env' <- lift (_enter_or_assert_strategy env (_distribute_strategy ob)) ;;
  if in_cross_replica_context env' then
    a <- lift (first_arg args) ;;
    tensor <- read (fun h => element_tensor h a) ;;
    tensor <-
      (if VariableAggregation_eqb (_aggregation ob) SUM then
         d <- (fun h => (dtype h self, h)) ;;
         ret (math_ops_cast (truediv tensor (List.length (_values ob))) d)
       else ret tensor) ;;
    group_on_devices _assign_on_device tensor (_values ob)
  else
    var <- get env' self ;;
    call_f assign_fn var args ;;; ret tt.


End SyncOnReadVariable.

Module _SyncOnReadSaveable.

(** [_SyncOnReadSaveable.restore] *)
Definition restore (_sync_on_read_variable : oid)
  (restored_tensors : list Qc) : M unit :=
  match restored_tensors with
  | [tensor] =>
      ob <- read (fun h => deref h _sync_on_read_variable) ;;
      tensor <-
        (if VariableAggregation_eqb (_aggregation ob) SUM then
           devices <- (fun h => (mapM (getattr_device h) (_values ob), h)) ;;
           d <- (fun h => (dtype h _sync_on_read_variable, h)) ;;
           ret (math_ops_cast (truediv tensor (List.length devices)) d)
         else ret tensor) ;;
      group_on_devices _assign_on_device tensor (_values ob)
  | _ => raise (ValueError "wrong number of values to unpack")
  end.

End _SyncOnReadSaveable.

(* ------------------------------------------------------------------ *)
(** ** A sample strategy collaborator *)

(** The beginning of [_aggregation_error_msg]. *)
Definition aggregation_message_head (variable_type : string) : string :=
  "You must specify an aggregation method to update a " ++ variable_type ++
  " in Replica Context. You can do so by passing " ++
  "an explicit value for argument `aggregation` to tf.Variable(..).".

(** Modelled from the spec: [experimental_local_results] lists the
    per-replica values of a distributed value, and a value that is not
    distributed is its own single result. *)
Definition sample_local_results (value_ : value) : M (list value) :=
  fun h =>
    if isinstance_v h value_ cls_DistributedValues
    then (Ok (values_of h value_), h)
    else (Ok [value_], h).

(** Modelled from the spec: [reduce_to] combines the per-replica values of
    a distributed value into one tensor by the reduce op; a value that is
    the same on every replica is passed on. *)
Definition sample_reduce_to {V} (op : ReduceOp) (value_ : value)
  (destinations : V) : M value :=
  fun h =>
    if isinstance_v h value_ cls_DistributedValues
    then alloc (new_tensor (reduced_tensor op h (values_of h value_))
                           float32 None) h
    else (Ok value_, h).

Definition sample_broadcast_to {V} (value_ : value) (destinations : V)
  : M value := ret value_.

(** Modelled from the spec: [extended.update] of a distributed variable
    applies the update function to every physical element with the same
    arguments. *)
Definition sample_update (var : oid) (f : assign_op) (args : list value)
  : M value :=
  ob <- read (fun h => deref h var) ;;
  for_each (fun v => call_f f v args ;;; ret tt) (_values ob) ;;;
  ret (VRef var).

Definition sample_extended (s : Strategy) : StrategyExtended oid :=
  {| extended_update := sample_update;
     extended_reduce_to := sample_reduce_to (V := oid);
     extended_broadcast_to := sample_broadcast_to (V := oid);
     experimental_local_results := sample_local_results |}.

Definition sample_extended_aggregating (s : Strategy)
  : StrategyExtended AggregatingVariable.t :=
  {| extended_update := fun var f args => call_f f (AggregatingVariable._v var) args;
     extended_reduce_to := sample_reduce_to (V := AggregatingVariable.t);
     extended_broadcast_to := sample_broadcast_to (V := AggregatingVariable.t);
     experimental_local_results := sample_local_results |}.

Definition sample_aggregating_variable : AggregatingVariable.t :=
  {| AggregatingVariable._distribute_strategy := strategy_A;
     AggregatingVariable._v := VRef 0;
     AggregatingVariable._aggregation := NONE |}.


(** A physical variable whose distributed container has been destroyed. *)
Definition heap_orphan : heap :=
  [ physical_variable "/device:GPU:0" float32 (Qc_of_Z 2) 10 (Some 1) ].

(** A value of the store that can serve as a physical element: a live
    physical variable with a device. *)
Definition is_physical (h : heap) (v : value) : Prop :=
  exists o, v = VRef o /\ o < List.length h /\
            ob_class (deref h o) = cls_ResourceVariable /\
            ob_device (deref h o) <> None.


(** The per-device helper that applies the update function [f]. *)
Definition on_device_of (f : assign_op) : string -> value -> Qc -> M unit :=
  match f with
  | assign_fn => _assign_on_device
  | assign_add_fn => _assign_add_on_device
  | assign_sub_fn => _assign_sub_on_device
  end.



(** The method of [SyncOnReadVariable] that applies the update [f]. *)
Definition SyncOnReadVariable_method (f : assign_op)
  : Env -> oid -> list value -> M unit :=
  match f with
  | assign_fn => SyncOnReadVariable.assign
  | assign_add_fn => SyncOnReadVariable.assign_add
  | assign_sub_fn => SyncOnReadVariable.assign_sub
  end.


(** The store of a sync-on-read variable of two elements holding 2 (at
    address 2, elements at 0 and 1), with a tensor holding 6 at address 3. *)
Definition heap_sync (a : VariableAggregation) (d : DType) : heap :=
  heap_variable cls_SyncOnReadVariable a d (Qc_of_Z 2)
    ++ [new_tensor (Qc_of_Z 6) d None].


(** The store of a mirrored variable of two elements holding 2 (at address
    2, elements at 0 and 1), with two distinct tensors at addresses 3 and
    4 holding [t3] and [t4]. *)
Definition heap_mirrored (a : VariableAggregation) (d : DType) (t3 t4 : Qc)
  : heap :=
  heap_variable cls_MirroredVariable a d (Qc_of_Z 2)
    ++ [new_tensor t3 d None; new_tensor t4 d None].




(* ------------------------------------------------------------------ *)
(** ** Structure of nested values *)

(** Induction over nested values, with the hypothesis for every child. *)
Fixpoint value_ind (P : value -> Prop)
  (Href : forall o, P (VRef o))
  (Hnode : forall k children, Forall P children -> P (VNode k children))
  (v : value) {struct v} : P v :=
  match v with
  | VRef o => Href o
  | VNode k children =>
      Hnode k children
        ((fix all (l : list value) : Forall P l :=
            match l with
            | [] => Forall_nil P
            | c :: l' => Forall_cons c (@value_ind P Href Hnode c) (all l')
            end) children)
  end.

(** The leaves of a structured value, in the order [nest] visits them. *)
Fixpoint leaves (v : value) : list value :=
  match v with
  | VRef _ => [v]
  | VNode _ children =>
      (fix go (cs : list value) : list value :=
         match cs with
         | [] => []
         | c :: cs' => leaves c ++ go cs'
         end) children
  end.

(** The same nesting with every leaf replaced by its image under [g]. *)
Fixpoint replace_leaves (g : value -> value) (v : value) : value :=
  match v with
  | VRef _ => g v
  | VNode k children =>
      VNode k ((fix go (cs : list value) : list value :=
                  match cs with
                  | [] => []
                  | c :: cs' => replace_leaves g c :: go cs'
                  end) children)
  end.

(** What [select_replica_mirrored] puts in the place of a leaf: the
    [i]-th element of a Mirrored value, any other leaf itself. *)
Definition mirrored_element (h : heap) (i : Z) (x : value) : value :=
  if isinstance_v h x cls_Mirrored
  then nth (Z.to_nat i) (values_of h x) x
  else x.

(** A leaf at which [select_replica_mirrored] gives up: a distributed
    value that is not Mirrored. *)
Definition not_mirrored (h : heap) (x : value) : bool :=
  isinstance_v h x cls_DistributedValues
  && negb (isinstance_v h x cls_Mirrored).




Definition children_of (v : value) : list value :=
  match v with
  | VNode _ children => children
  | VRef _ => []
  end.



(** The loop of [regroup] over the children of [v0], with the recursive
    call as a parameter. *)
Fixpoint regroup_loop (rec : value -> list value -> M value)
  (rest : list value) (cs : list value)
  (accs : list (value -> result value)) : M (list value) :=
  match cs, accs with
  | c :: cs', acc :: accs' =>
      column <- lift (mapM acc rest) ;;
      r <- rec c column ;;
      rs <- regroup_loop rec rest cs' accs' ;;
      ret (r :: rs)
  | _, _ => ret []
  end.

(** The j-th children of the values of the other replicas. *)
Definition column (rest : list value) (j : nat) : list value :=
  map (fun v => nth j (children_of v) (VRef 0)) rest.



(** ** Stores for the regroup examples *)

(** Three plain tensors at addresses 0, 1 and 2. *)
Definition heap_tensors : heap :=
  [ new_tensor (Qc_of_Z 1) float32 None;
    new_tensor (Qc_of_Z 5) float32 None;
    new_tensor (Qc_of_Z 7) float32 None ].

(** Two tensors (0, 1), a Mirrored value over them (2) and a PerReplica
    value over them (3). *)
Definition heap_wrapped : heap :=
  [ new_tensor (Qc_of_Z 1) float32 None;
    new_tensor (Qc_of_Z 1) float32 None;
    new_container cls_Mirrored [VRef 0; VRef 1];
    new_container cls_PerReplica [VRef 0; VRef 1] ].








(** Whether a value lives on the current device, as [_get_closest]
    compares devices. *)
Definition on_current_device (env : Env) (h : heap) (v : value) : bool :=
  match getattr_device h v with
  | Ok d => String.eqb (canonicalize env d)
                       (canonicalize env (current_device env))
  | Raise _ => false
  end.


(* ------------------------------------------------------------------ *)
(** ** Construction of distributed variables *)

Definition set_container (ob : object) (c : option oid) : object :=
  {| ob_class := ob_class ob; ob_alive := ob_alive ob; _values := _values ob;
     _distributed_container := c;
     _distribute_strategy := _distribute_strategy ob;
     _aggregation := _aggregation ob; ob_device := ob_device ob;
     ob_dtype := ob_dtype ob; ob_tensor := ob_tensor ob;
     ob_handle := ob_handle ob |}.

Definition set_aggregation (ob : object) (a : VariableAggregation) : object :=
  {| ob_class := ob_class ob; ob_alive := ob_alive ob; _values := _values ob;
     _distributed_container := _distributed_container ob;
     _distribute_strategy := _distribute_strategy ob;
     _aggregation := a; ob_device := ob_device ob;
     ob_dtype := ob_dtype ob; ob_tensor := ob_tensor ob;
     ob_handle := ob_handle ob |}.

(** [v._distributed_container = weakref.ref(self)]: an attribute can be
    set on an object of the store, not on a list, tuple or dict. *)
Definition setattr__distributed_container (v : value) (self : oid) : M unit :=
  fun h =>
    match v with
    | VRef o => (Ok tt, update h o (set_container (deref h o) (Some self)))
    | VNode _ _ => (Raise AttributeError, h)
    end.

(** [self.primary.name]: in the model the physical variables are the
    objects that have a name; the string itself is not kept. *)
Definition primary_name (self : oid) : M unit :=
  fun h =>
    match primary h self with
    | Ok (VRef o) =>
        if pyclass_eqb (ob_class (deref h o)) cls_ResourceVariable
        then (Ok tt, h) else (Raise AttributeError, h)
    | Ok (VNode _ _) => (Raise AttributeError, h)
    | Raise e => (Raise e, h)
    end.

(** [DistributedVariable.__init__] on a fresh object of class [cls]. *)
Definition DistributedVariable__init__ (cls : pyclass) (strategy : Strategy)
  (values : list value) : M oid :=
  self <- (fun h => (Ok (List.length h),
                     h ++ [distributed_variable cls strategy NONE values])) ;;
  primary_name self ;;;
  for_each (fun v => setattr__distributed_container v self) values ;;;
  ret self.

(** [MirroredVariable.__init__] and [SyncOnReadVariable.__init__], which
    differ in the class only. *)
Definition Variable__init__ (cls : pyclass) (strategy : Strategy)
  (values : list value) (aggregation : VariableAggregation) : M oid :=
  self <- DistributedVariable__init__ cls strategy values ;;
  (fun h => (Ok tt, update h self (set_aggregation (deref h self) aggregation))) ;;;
  ret self.



(* ------------------------------------------------------------------ *)
(** ** Saveables and type specs *)

Module _MirroredSaveable.

(** [_MirroredSaveable.restore] *)
Definition restore (_mirrored_variable : oid) (restored_tensors : list Qc)
  : M unit :=
  match restored_tensors with
  | [tensor] =>
      ob <- read (fun h => deref h _mirrored_variable) ;;
      group_on_devices _assign_on_device tensor (_values ob)
  | _ => raise (ValueError "wrong number of values to unpack")
  end.

End _MirroredSaveable.

(** [PerReplicaSpec._from_components] *)
Definition _from_components (tensor_list : list value) : M value :=
  PerReplica tensor_list.


(* ------------------------------------------------------------------ *)
(** ** The round trip for any wrapper class and selection function *)






(* ================================================================== *)
(** * Properties *)

Unset Implicit Arguments.

(* ------------------------------------------------------------------ *)
(** ** Indexing *)

Lemma py_getitem_in_range {A} (t : list A) (i : Z) :
  (0 <= i < Z.of_nat (List.length t))%Z ->
  exists x, nth_error t (Z.to_nat i) = Some x /\ py_getitem t i = Ok x.
Proof.
  intros Hi. unfold py_getitem.
  destruct (Z.ltb_spec i 0); [lia|].
  destruct (Z.ltb_spec i 0); [lia|].
  destruct (Z.leb_spec (Z.of_nat (List.length t)) i); [lia|]. simpl.
  destruct (nth_error t (Z.to_nat i)) as [x|] eqn:E.
  - exists x. split; reflexivity.
  - apply nth_error_None in E. lia.
Qed.

(* ------------------------------------------------------------------ *)
(** ** DistributedValues.get *)



(* ------------------------------------------------------------------ *)
(** ** PerReplicaSpec._to_components *)

(** C5, as stated, fails: in the cross-replica context of a strategy with
    two replicas in sync, flattening a PerReplica of two tensors is not
    rejected; it returns the two components. *)
Lemma to_components_cross_replica_counterexample :
  in_cross_replica_context (env_cross strategy_A) = true /\
  (1 < strategy_num_replicas_in_sync strategy_A)%Z /\
  isinstance (deref (heap_container cls_PerReplica) 2) cls_PerReplica = true /\
  _to_components (env_cross strategy_A) (heap_container cls_PerReplica) 2
    = Ok [VRef 0; VRef 1].
Proof. repeat split. Qed.

(** C5, amended.  Flattening a PerReplica is rejected with ValueError
    exactly inside a replica context with more than one replica in sync;
    in cross-replica context (whatever the number of replicas), in a
    replica context with a single replica and outside every strategy scope
    it returns the tuple of per-replica values. *)
Theorem to_components_rejected_in_replica_context :
  forall (env : Env) (h : heap) (value_ : oid),
    (in_cross_replica_context env = true ->
       _to_components env h value_ = Ok (_values (deref h value_))) /\
    (forall s rid,
       mode env = InReplicaThreadMode s rid ->
       (1 < strategy_num_replicas_in_sync s)%Z ->
       _to_components env h value_ =
         Raise (ValueError
           "Flattening a PerReplica to components is not supported in replica context.")) /\
    (forall s rid,
       mode env = InReplicaThreadMode s rid ->
       (strategy_num_replicas_in_sync s <= 1)%Z ->
       _to_components env h value_ = Ok (_values (deref h value_))) /\
    (mode env = DefaultReplicaThreadMode ->
       _to_components env h value_ = Ok (_values (deref h value_))).
Proof.
  intros env h value_. unfold _to_components, get_replica_context,
    in_cross_replica_context.
  repeat split.
  - destruct (mode env); intros; try discriminate; reflexivity.
  - intros s rid Hm Hn. rewrite Hm. simpl.
    destruct (Z.ltb_spec 1 (strategy_num_replicas_in_sync s)); [reflexivity | lia].
  - intros s rid Hm Hn. rewrite Hm. simpl.
    destruct (Z.ltb_spec 1 (strategy_num_replicas_in_sync s)); [lia | reflexivity].
  - intros Hm. rewrite Hm. reflexivity.
Qed.

Lemma to_components_rejected_in_replica_context_witness :
  _to_components (env_cross strategy_A) (heap_container cls_PerReplica) 2
    = Ok [VRef 0; VRef 1] /\
  _to_components (env_replica strategy_A 0) (heap_container cls_PerReplica) 2
    = Raise (ValueError
        "Flattening a PerReplica to components is not supported in replica context.") /\
  _to_components
    (env_replica {| strategy_id := 3; strategy_num_replicas_in_sync := 1 |} 0)
    (heap_container cls_PerReplica) 2 = Ok [VRef 0; VRef 1] /\
  _to_components env_default (heap_container cls_PerReplica) 2
    = Ok [VRef 0; VRef 1].
Proof.
  split; [| split; [| split]].
  - apply (proj1 (to_components_rejected_in_replica_context
             (env_cross strategy_A) (heap_container cls_PerReplica) 2)).
    reflexivity.
  - apply (proj1 (proj2 (to_components_rejected_in_replica_context
             (env_replica strategy_A 0) (heap_container cls_PerReplica) 2))
             strategy_A (ReplicaIdInt 0)).
    + reflexivity.
    + simpl. lia.
  - apply (proj1 (proj2 (proj2 (to_components_rejected_in_replica_context
             (env_replica {| strategy_id := 3;
                             strategy_num_replicas_in_sync := 1 |} 0)
             (heap_container cls_PerReplica) 2)))
             {| strategy_id := 3; strategy_num_replicas_in_sync := 1 |}
             (ReplicaIdInt 0)).
    + reflexivity.
    + simpl. lia.
  - apply (proj2 (proj2 (proj2 (to_components_rejected_in_replica_context
             env_default (heap_container cls_PerReplica) 2)))).
    reflexivity.
Defined.

(* ------------------------------------------------------------------ *)
(** ** DistributedVariable.handle *)

(** C9.  [handle] raises the usage error whenever no replica id is
    active, which is the case in cross-replica context with no update
    replica id; with an active replica id [i] in range, whether it comes
    from the replica context or from the update context, it is the
    [handle] attribute of the physical element [values[i]]. *)
Theorem handle_requires_active_replica_id :
  forall (env : Env) (h : heap) (self : oid),
    (_get_current_replica_id_as_int env = None ->
       handle env h self = Raise handle_error) /\
    (in_cross_replica_context env = true ->
     get_update_replica_id env = None ->
       handle env h self = Raise handle_error) /\
    (forall i : Z,
       (0 <= i < Z.of_nat (List.length (_values (deref h self))))%Z ->
       (_get_current_replica_id_as_int env = Some i \/
        (exists s, mode env = InReplicaThreadMode s (ReplicaIdInt i)) \/
        (in_cross_replica_context env = true /\
         get_update_replica_id env = Some i)) ->
       exists v,
         nth_error (_values (deref h self)) (Z.to_nat i) = Some v /\
         handle env h self = getattr_handle h v).
Proof.
  intros env h self.
  assert (Hnone : _get_current_replica_id_as_int env = None ->
                  handle env h self = Raise handle_error).
  { intros Hid. unfold handle. rewrite Hid. reflexivity. }
  split; [exact Hnone|]. split.
  - intros Hc Hu. apply Hnone.
    unfold _get_current_replica_id_as_int, get_replica_context.
    unfold in_cross_replica_context in Hc.
    destruct (mode env); try discriminate. exact Hu.
  - intros i Hi Hsrc.
    assert (Hid : _get_current_replica_id_as_int env = Some i).
    { destruct Hsrc as [Hid | [[s Hm] | [Hc Hu]]].
      - exact Hid.
      - unfold _get_current_replica_id_as_int, get_replica_context.
        rewrite Hm. reflexivity.
      - unfold _get_current_replica_id_as_int, get_replica_context.
        unfold in_cross_replica_context in Hc.
        destruct (mode env); try discriminate. exact Hu. }
    destruct (py_getitem_in_range _ _ Hi) as [v [Hn Hg]].
    exists v. split; [exact Hn|].
    unfold handle. rewrite Hid, Hg. reflexivity.
Qed.

Lemma handle_requires_active_replica_id_witness :
  handle (env_cross strategy_A)
         (heap_variable cls_MirroredVariable SUM float32 (Qc_of_Z 2)) 2
    = Raise handle_error /\
  handle (env_replica strategy_A 1)
         (heap_variable cls_MirroredVariable SUM float32 (Qc_of_Z 2)) 2
    = Ok 11 /\
  handle (env_update strategy_A 0)
         (heap_variable cls_MirroredVariable SUM float32 (Qc_of_Z 2)) 2
    = Ok 10.
Proof.
  pose (h := heap_variable cls_MirroredVariable SUM float32 (Qc_of_Z 2)).
  split; [| split].
  - apply (proj1 (proj2 (handle_requires_active_replica_id
                           (env_cross strategy_A) h 2))); reflexivity.
  - destruct (proj2 (proj2 (handle_requires_active_replica_id
                              (env_replica strategy_A 1) h 2)) 1%Z)
      as [v [Hn Hh]].
    + simpl. lia.
    + right. left. exists strategy_A. reflexivity.
    + simpl in Hn. injection Hn as <-. exact Hh.
  - destruct (proj2 (proj2 (handle_requires_active_replica_id
                              (env_update strategy_A 0) h 2)) 0%Z)
      as [v [Hn Hh]].
    + simpl. lia.
    + right. right. split; reflexivity.
    + simpl in Hn. injection Hn as <-. exact Hh.
Defined.

(* ------------------------------------------------------------------ *)
(** ** Updates in replica context without an aggregation method *)

Lemma enter_or_assert_own_replica env s rid strategy :
  mode env = InReplicaThreadMode s rid ->
  strategy_is s strategy = true ->
  _enter_or_assert_strategy env strategy = Ok env /\
  in_cross_replica_context env = false /\
  _assert_replica_context env strategy = Ok tt.
Proof.
  intros Hm Hs.
  unfold _enter_or_assert_strategy, _assert_strategy, has_strategy,
    get_strategy, in_cross_replica_context, _assert_replica_context,
    get_replica_context.
  rewrite Hm. simpl. rewrite Hs. simpl. repeat split.
Qed.

Lemma enter_or_assert_own_cross env s strategy :
  mode env = CrossReplicaThreadMode s ->
  strategy_is s strategy = true ->
  _enter_or_assert_strategy env strategy = Ok env /\
  in_cross_replica_context env = true.
Proof.
  intros Hm Hs.
  unfold _enter_or_assert_strategy, _assert_strategy, has_strategy,
    get_strategy, in_cross_replica_context.
  rewrite Hm. simpl. rewrite Hs. simpl. repeat split.
Qed.

(** C8.  In the replica context of the variable's own strategy, with
    aggregation NONE, each of [assign], [assign_add] and [assign_sub] of a
    MirroredVariable raises the ValueError built from
    [_aggregation_error_msg], whose text begins by asking for an
    aggregation method through the [aggregation] argument of
    [tf.Variable]; nothing is written.  The same holds for
    AggregatingVariable. *)
Theorem replica_update_requires_aggregation :
  forall (extM : Strategy -> StrategyExtended oid)
         (extA : Strategy -> StrategyExtended AggregatingVariable.t)
         (env : Env) (s : Strategy) (rid : replica_id_repr)
         (h : heap) (self : oid) (agg : AggregatingVariable.t)
         (args : list value) (merge_args : list (list value)),
    mode env = InReplicaThreadMode s rid ->
    (strategy_is s (_distribute_strategy (deref h self)) = true ->
     _aggregation (deref h self) = NONE ->
     let e := ValueError (_aggregation_error_msg "MirroredVariable") in
     MirroredVariable.assign extM env self args merge_args h = (Raise e, h) /\
     MirroredVariable.assign_add extM env self args merge_args h = (Raise e, h) /\
     MirroredVariable.assign_sub extM env self args merge_args h = (Raise e, h)) /\
    (strategy_is s (AggregatingVariable._distribute_strategy agg) = true ->
     AggregatingVariable._aggregation agg = NONE ->
     let e := ValueError (_aggregation_error_msg "AggregatingVariable") in
     AggregatingVariable.assign extA env agg args merge_args h = (Raise e, h) /\
     AggregatingVariable.assign_add extA env agg args merge_args h = (Raise e, h) /\
     AggregatingVariable.assign_sub extA env agg args merge_args h = (Raise e, h)) /\
    prefix (aggregation_message_head "MirroredVariable")
           (_aggregation_error_msg "MirroredVariable") = true /\
    prefix (aggregation_message_head "AggregatingVariable")
           (_aggregation_error_msg "AggregatingVariable") = true.
Proof.
  intros extM extA env s rid h self agg args merge_args Hm.
  split; [| split; [| split; reflexivity]].
  - intros Hs Ha e.
    destruct (enter_or_assert_own_replica env _ _ _ Hm Hs) as [He [Hc Hr]].
    assert (H : forall f,
      MirroredVariable._assign_func extM env self f args merge_args h
        = (Raise e, h)).
    { intros f. unfold MirroredVariable._assign_func, bind, read, lift.
      rewrite He, Hc, Hr, Ha. reflexivity. }
    repeat split; apply H.
  - intros Hs Ha e.
    destruct (enter_or_assert_own_replica env _ _ _ Hm Hs) as [He [Hc Hr]].
    assert (H : forall f,
      AggregatingVariable._assign_func extA env agg f args merge_args h
        = (Raise e, h)).
    { intros f. unfold AggregatingVariable._assign_func, bind, lift.
      rewrite He, Hc. unfold get_replica_context. rewrite Hm, Ha.
      reflexivity. }
    repeat split; apply H.
Qed.

Lemma replica_update_requires_aggregation_witness :
  let h := heap_variable cls_MirroredVariable NONE float32 (Qc_of_Z 2) in
  MirroredVariable.assign_add sample_extended (env_replica strategy_A 0) 2
    [VRef 0] [[VRef 0]; [VRef 0]] h
    = (Raise (ValueError (_aggregation_error_msg "MirroredVariable")), h) /\
  AggregatingVariable.assign sample_extended_aggregating
    (env_replica strategy_A 0) sample_aggregating_variable
    [VRef 0] [[VRef 0]; [VRef 0]] h
    = (Raise (ValueError (_aggregation_error_msg "AggregatingVariable")), h).
Proof.
  intros h.
  destruct (@replica_update_requires_aggregation
              sample_extended sample_extended_aggregating
              (env_replica strategy_A 0) strategy_A (ReplicaIdInt 0)
              h 2 sample_aggregating_variable
              [VRef 0] [[VRef 0]; [VRef 0]] eq_refl)
    as [HM [HA _]].
  split.
  - apply HM; reflexivity.
  - apply HA; reflexivity.
Defined.

(* ------------------------------------------------------------------ *)
(** ** value_container *)

(** The container a value is a live element of, if any. *)
Lemma value_container_cases (h : heap) (val : value) :
  value_container h val =
    if hasattr__distributed_container h val
       && negb (isinstance_v h val cls_DistributedVariable)
    then match call__distributed_container h val with
         | Ok (Some c) => Ok (VRef c)
         | Ok None => Ok val
         | Raise e => Raise e
         end
    else Ok val.
Proof.
  unfold value_container.
  destruct (hasattr__distributed_container h val
            && negb (isinstance_v h val cls_DistributedVariable)); [|reflexivity].
  destruct (call__distributed_container h val) as [[c|]|e]; reflexivity.
Qed.

(** C10.  [value_container] never raises.  It returns the container when
    [val] carries a [_distributed_container] weak reference whose referent
    is alive and [val] is not a DistributedVariable; when [val] has no such
    attribute, is a DistributedVariable, or the referent is gone, it
    returns [val] itself; and a result other than [val] is always that live
    container. *)
Theorem value_container_total :
  forall (h : heap) (val : value),
    (exists r, value_container h val = Ok r) /\
    (forall c,
       call__distributed_container h val = Ok (Some c) ->
       isinstance_v h val cls_DistributedVariable = false ->
       value_container h val = Ok (VRef c)) /\
    (hasattr__distributed_container h val = false \/
     isinstance_v h val cls_DistributedVariable = true \/
     call__distributed_container h val = Ok None ->
       value_container h val = Ok val) /\
    (forall r,
       value_container h val = Ok r -> r <> val ->
       exists c, r = VRef c /\
                 call__distributed_container h val = Ok (Some c) /\
                 ob_alive (deref h c) = true /\
                 isinstance_v h val cls_DistributedVariable = false).
Proof.
  intros h val. rewrite value_container_cases.
  assert (Hattr : hasattr__distributed_container h val = true ->
                  exists w, call__distributed_container h val
                            = Ok (weakref_call h w)).
  { destruct val as [o|k cs]; simpl; [|discriminate].
    destruct (_distributed_container (deref h o)) as [w|]; [|discriminate].
    intros _. exists w. reflexivity. }
  assert (Hno : hasattr__distributed_container h val = false ->
                call__distributed_container h val = Raise AttributeError).
  { destruct val as [o|k cs]; simpl; [|reflexivity].
    destruct (_distributed_container (deref h o)); [discriminate|reflexivity]. }
  destruct (hasattr__distributed_container h val) eqn:Ha;
    destruct (isinstance_v h val cls_DistributedVariable) eqn:Hi; simpl.
  - repeat split.
    + eexists; reflexivity.
    + intros c _ Hf. discriminate Hf.
    + intros r Hr Hne. injection Hr as <-. contradiction.
  - destruct (Hattr eq_refl) as [w Hw]. rewrite Hw.
    unfold weakref_call. destruct (ob_alive (deref h w)) eqn:Hal.
    + repeat split.
      * eexists; reflexivity.
      * intros c Hc _. injection Hc as <-. reflexivity.
      * intros [Hf | [Hf | Hf]]; discriminate Hf.
      * intros r Hr Hne. injection Hr as <-. exists w. repeat split.
        exact Hal.
    + repeat split.
      * eexists; reflexivity.
      * intros c Hc. discriminate Hc.
      * intros r Hr Hne. injection Hr as <-. contradiction.
  - repeat split.
    + eexists; reflexivity.
    + intros c Hc. rewrite (Hno eq_refl) in Hc. discriminate Hc.
    + intros r Hr Hne. injection Hr as <-. contradiction.
  - repeat split.
    + eexists; reflexivity.
    + intros c Hc. rewrite (Hno eq_refl) in Hc. discriminate Hc.
    + intros r Hr Hne. injection Hr as <-. contradiction.
Qed.

Lemma value_container_total_witness :
  let h := heap_variable cls_MirroredVariable SUM float32 (Qc_of_Z 2) in
  value_container h (VRef 0) = Ok (VRef 2) /\
  value_container h (VRef 2) = Ok (VRef 2) /\
  value_container heap_orphan (VRef 0) = Ok (VRef 0).
Proof.
  intros h. split; [| split].
  - apply (proj1 (proj2 (value_container_total h (VRef 0))) 2); reflexivity.
  - apply (proj1 (proj2 (proj2 (value_container_total h (VRef 2))))).
    left. reflexivity.
  - apply (proj1 (proj2 (proj2 (value_container_total heap_orphan (VRef 0))))).
    right. right. reflexivity.
Defined.

(* ------------------------------------------------------------------ *)
(** ** The store *)

Lemma length_update (h : heap) (o : oid) (ob : object) :
  List.length (update h o ob) = List.length h.
Proof.
  revert o. induction h as [|x h IH]; intros [|o]; simpl; auto.
Qed.

Lemma deref_update_eq (h : heap) (o : oid) (ob : object) :
  o < List.length h -> deref (update h o ob) o = ob.
Proof.
  unfold deref. revert o.
  induction h as [|x h IH]; intros [|o] Ho; simpl in *; try lia; auto.
  apply IH. lia.
Qed.

Lemma deref_update_neq (h : heap) (o o' : oid) (ob : object) :
  o <> o' -> deref (update h o ob) o' = deref h o'.
Proof.
  unfold deref. revert o o'.
  induction h as [|x h IH]; intros [|o] [|o'] Hne; simpl; auto; try lia.
Qed.

Lemma deref_app (h ext : heap) (o : oid) :
  o < List.length h -> deref (h ++ ext) o = deref h o.
Proof. intros Ho. unfold deref. apply app_nth1. exact Ho. Qed.

Lemma deref_app_new (h : heap) (ob : object) :
  deref (h ++ [ob]) (List.length h) = ob.
Proof.
  unfold deref. rewrite app_nth2 by lia. rewrite Nat.sub_diag. reflexivity.
Qed.

(** One update of a physical variable. *)
Lemma variable_update_physical (f : assign_op) (h : heap) (o : oid) (t : Qc) :
  ob_class (deref h o) = cls_ResourceVariable ->
  variable_update f (VRef o) t h =
    (Ok tt, update h o (set_tensor (deref h o)
                          (apply_assign f (ob_tensor (deref h o)) t))).
Proof. intros Hc. unfold variable_update. rewrite Hc. reflexivity. Qed.

Lemma is_physical_update (h : heap) (o : oid) (t : Qc) (v : value) :
  is_physical h v ->
  is_physical (update h o (set_tensor (deref h o) t)) v.
Proof.
  intros [o' [-> [Hl [Hc Hd]]]]. exists o'. split; [reflexivity|].
  rewrite length_update. split; [exact Hl|].
  destruct (Nat.eq_dec o o') as [->|Hne].
  - rewrite deref_update_eq by exact Hl. simpl. split; assumption.
  - rewrite deref_update_neq by exact Hne. split; assumption.
Qed.

(** The fan-out loop: every physical element receives the same update
    with the same tensor, and nothing else in the store changes. *)
Lemma group_on_devices_fans_out (f : assign_op) (t : Qc) :
  forall (values : list value) (h : heap),
    Forall (is_physical h) values ->
    NoDup values ->
    exists h',
      group_on_devices (on_device_of f) t values h = (Ok tt, h') /\
      List.length h' = List.length h /\
      (forall o, In (VRef o) values ->
         deref h' o = set_tensor (deref h o)
                        (apply_assign f (ob_tensor (deref h o)) t)) /\
      (forall o, ~ In (VRef o) values -> deref h' o = deref h o).
Proof.
  induction values as [|v values IH]; intros h Hp Hn.
  - exists h. simpl. repeat split; auto. intros o [].
  - inversion Hp as [|? ? Hv Hrest]; subst.
    inversion Hn as [|? ? Hnotin Hn']; subst.
    destruct Hv as [o [-> [Hl [Hc Hd]]]].
    set (h1 := update h o (set_tensor (deref h o)
                             (apply_assign f (ob_tensor (deref h o)) t))).
    assert (Hp1 : Forall (is_physical h1) values).
    { eapply Forall_impl; [|exact Hrest].
      intros v Hv. apply is_physical_update. exact Hv. }
    destruct (IH h1 Hp1 Hn') as [h' [Hrun [Hlen [Hin Hout]]]].
    exists h'. split; [| split; [| split]].
    + unfold group_on_devices in *. simpl. unfold bind at 1.
      unfold bind at 1. simpl.
      destruct (ob_device (deref h o)) as [d|] eqn:Hdev; [|contradiction].
      assert (Hstep : on_device_of f d (VRef o) t h = (Ok tt, h1)).
      { unfold h1. destruct f; simpl on_device_of;
          unfold _assign_on_device, _assign_add_on_device,
            _assign_sub_on_device, variable_update;
          rewrite Hc; reflexivity. }
      rewrite Hstep. exact Hrun.
    + rewrite Hlen. unfold h1. apply length_update.
    + intros o' [Heq | Hin'].
      * injection Heq as <-. rewrite Hout by exact Hnotin.
        unfold h1. apply deref_update_eq. exact Hl.
      * assert (o <> o') by (intros ->; contradiction).
        rewrite (Hin o' Hin'). unfold h1.
        rewrite deref_update_neq by assumption. reflexivity.
    + intros o' Hnin.
      assert (o <> o') by (intros ->; apply Hnin; left; reflexivity).
      rewrite Hout by (intros Hx; apply Hnin; right; exact Hx).
      unfold h1. apply deref_update_neq. assumption.
Qed.

(* ------------------------------------------------------------------ *)
(** ** SyncOnReadVariable in cross-replica context *)



Ltac physical_elements :=
  repeat constructor;
  try (eexists; split; [reflexivity|]; simpl; repeat split;
       solve [lia | discriminate | reflexivity]).

Ltac distinct_elements :=
  repeat constructor; simpl; intuition discriminate.


(* ------------------------------------------------------------------ *)
(** ** Checkpoint restore of a SyncOnReadVariable *)










(* ------------------------------------------------------------------ *)
(** ** The leaf case of regroup *)





(* ------------------------------------------------------------------ *)
(** ** The precision guard of MirroredVariable *)






(* ------------------------------------------------------------------ *)
(** ** Walking a structured value *)

Lemma map_structure_node (f : value -> result value) (k : node_kind)
  (cs : list value) :
  map_structure f (VNode k cs)
  = rbind (mapM (map_structure f) cs) (fun rs => Ok (VNode k rs)).
Proof.
  simpl. f_equal. induction cs as [|c cs IH]; simpl; [reflexivity|].
  rewrite IH. reflexivity.
Qed.

Lemma leaves_node (k : node_kind) (cs : list value) :
  leaves (VNode k cs) = flat_map leaves cs.
Proof.
  simpl. induction cs as [|c cs IH]; simpl; [reflexivity|].
  rewrite IH. reflexivity.
Qed.

Lemma replace_leaves_node (g : value -> value) (k : node_kind)
  (cs : list value) :
  replace_leaves g (VNode k cs) = VNode k (map (replace_leaves g) cs).
Proof. reflexivity. Qed.

Lemma existsb_flat_map {A B} (p : B -> bool) (f : A -> list B) (l : list A) :
  existsb p (flat_map f l) = existsb (fun a => existsb p (f a)) l.
Proof.
  induction l as [|a l IH]; simpl; [reflexivity|].
  rewrite existsb_app, IH. reflexivity.
Qed.

Lemma mapM_cases {A B} (F : A -> result B) (G : A -> B) (bad : A -> bool)
  (e : exn) (xs : list A) :
  Forall (fun x => F x = if bad x then Raise e else Ok (G x)) xs ->
  mapM F xs = if existsb bad xs then Raise e else Ok (map G xs).
Proof.
  induction 1 as [|x xs Hx _ IH]; simpl; [reflexivity|].
  rewrite Hx. destruct (bad x); simpl; [reflexivity|].
  rewrite IH. destruct (existsb bad xs); reflexivity.
Qed.

Lemma mapM_ok_inv {A B} (F : A -> result B) (xs : list A) :
  is_ok (mapM F xs) = true -> Forall (fun x => is_ok (F x) = true) xs.
Proof.
  induction xs as [|x xs IH]; simpl; intros H; constructor.
  - destruct (F x); [reflexivity | discriminate H].
  - apply IH. destruct (F x); [|discriminate H]. simpl in H.
    destruct (mapM F xs); [reflexivity | discriminate H].
Qed.

Lemma mapM_pointwise {A B} (F : A -> result B) (xs : list A) (ys : list B) :
  Forall2 (fun x y => F x = Ok y) xs ys -> mapM F xs = Ok ys.
Proof.
  induction 1 as [|x y xs ys Hx _ IH]; simpl; [reflexivity|].
  rewrite Hx. simpl. rewrite IH. reflexivity.
Qed.

Lemma mapM_ext_in {A B} (F G : A -> result B) (xs : list A) :
  (forall x, In x xs -> F x = G x) -> mapM F xs = mapM G xs.
Proof.
  induction xs as [|x xs IH]; intros H; simpl; [reflexivity|].
  rewrite (H x) by (left; reflexivity).
  rewrite IH by (intros y Hy; apply H; right; exact Hy). reflexivity.
Qed.


(* ------------------------------------------------------------------ *)
(** ** select_replica_mirrored *)

Lemma mirrored_is_distributed_values (ob : object) :
  isinstance ob cls_Mirrored = true ->
  isinstance ob cls_DistributedValues = true.
Proof.
  unfold isinstance. destruct (ob_class ob); simpl; intros H;
    try reflexivity; discriminate H.
Qed.

Lemma get_mirrored_leaf (h : heap) (i : Z) (x : value) :
  (isinstance_v h x cls_Mirrored = true ->
   (0 <= i < Z.of_nat (List.length (values_of h x)))%Z) ->
  _get_mirrored h i x =
    if not_mirrored h x then Raise mirrored_error
    else Ok (mirrored_element h i x).
Proof.
  intros Hi. unfold _get_mirrored, not_mirrored, mirrored_element.
  destruct (isinstance_v h x cls_DistributedValues) eqn:Hdv;
    destruct (isinstance_v h x cls_Mirrored) eqn:Hm; simpl; try reflexivity.
  - destruct (py_getitem_in_range _ _ (Hi eq_refl)) as [v [Hn Hg]].
    rewrite Hg. f_equal. symmetry. apply nth_error_nth. exact Hn.
  - destruct x as [o|k cs]; simpl in *; [|discriminate].
    rewrite (mirrored_is_distributed_values _ Hm) in Hdv. discriminate.
Qed.

Lemma select_replica_mirrored_eval (h : heap) (i : Z) (s : value) :
  (forall x, In x (leaves s) -> isinstance_v h x cls_Mirrored = true ->
     (0 <= i < Z.of_nat (List.length (values_of h x)))%Z) ->
  select_replica_mirrored h i s =
    if existsb (not_mirrored h) (leaves s) then Raise mirrored_error
    else Ok (replace_leaves (mirrored_element h i) s).
Proof.
  unfold select_replica_mirrored.
  induction s as [o | k cs IH] using value_ind; intros Hi.
  - simpl. rewrite orb_false_r. apply get_mirrored_leaf.
    apply Hi. left. reflexivity.
  - rewrite map_structure_node, leaves_node, replace_leaves_node,
      existsb_flat_map.
    rewrite (mapM_cases (map_structure (_get_mirrored h i))
               (replace_leaves (mirrored_element h i))
               (fun c => existsb (not_mirrored h) (leaves c)) mirrored_error).
    + destruct (existsb _ cs); reflexivity.
    + rewrite Forall_forall in *. intros c Hc. apply (IH c Hc).
      intros x Hx. apply Hi. rewrite leaves_node. apply in_flat_map.
      exists c. split; assumption.
Qed.

Lemma select_replica_mirrored_ok_inv (h : heap) (i : Z) (s : value) :
  is_ok (select_replica_mirrored h i s) = true ->
  existsb (not_mirrored h) (leaves s) = false.
Proof.
  unfold select_replica_mirrored.
  induction s as [o | k cs IH] using value_ind; intros Hok.
  - simpl in *. rewrite orb_false_r. unfold _get_mirrored, not_mirrored in *.
    destruct (isinstance_v h (VRef o) cls_DistributedValues); [|reflexivity].
    destruct (isinstance_v h (VRef o) cls_Mirrored);
      [reflexivity | discriminate Hok].
  - rewrite map_structure_node in Hok. rewrite leaves_node, existsb_flat_map.
    assert (Hcs : is_ok (mapM (map_structure (_get_mirrored h i)) cs) = true).
    { destruct (mapM (map_structure (_get_mirrored h i)) cs);
        [reflexivity | discriminate Hok]. }
    apply mapM_ok_inv in Hcs.
    clear Hok. induction cs as [|c cs IHcs]; simpl; [reflexivity|].
    inversion IH; subst. inversion Hcs; subst.
    rewrite H1 by assumption. simpl. apply IHcs; assumption.
Qed.

(** C6.  [select_replica_mirrored] fails as soon as some leaf is a
    distributed value that is not Mirrored; for a replica id that is an
    index of every Mirrored leaf the failure is the TypeError, and
    otherwise the call succeeds with the same nesting in which every
    Mirrored leaf is replaced by its element [values[i]] and every other
    leaf is kept. *)
Theorem select_replica_mirrored_spec :
  forall (h : heap) (i : Z) (s : value),
    ((exists x, In x (leaves s) /\
                isinstance_v h x cls_DistributedValues = true /\
                isinstance_v h x cls_Mirrored = false) ->
       is_ok (select_replica_mirrored h i s) = false) /\
    ((forall x, In x (leaves s) -> isinstance_v h x cls_Mirrored = true ->
        (0 <= i < Z.of_nat (List.length (values_of h x)))%Z) ->
       ((exists x, In x (leaves s) /\
                   isinstance_v h x cls_DistributedValues = true /\
                   isinstance_v h x cls_Mirrored = false) ->
          select_replica_mirrored h i s = Raise mirrored_error) /\
       ((forall x, In x (leaves s) ->
                   isinstance_v h x cls_DistributedValues = true ->
                   isinstance_v h x cls_Mirrored = true) ->
          select_replica_mirrored h i s
            = Ok (replace_leaves (mirrored_element h i) s) /\
          (forall x, In x (leaves s) ->
             isinstance_v h x cls_DistributedValues = false ->
             mirrored_element h i x = x) /\
          (forall x, In x (leaves s) ->
             isinstance_v h x cls_Mirrored = true ->
             py_getitem (values_of h x) i = Ok (mirrored_element h i x)))).
Proof.
  intros h i s.
  assert (Hbad : (exists x, In x (leaves s) /\
                   isinstance_v h x cls_DistributedValues = true /\
                   isinstance_v h x cls_Mirrored = false) ->
                 existsb (not_mirrored h) (leaves s) = true).
  { intros [x [Hx [Hdv Hm]]]. apply existsb_exists. exists x.
    split; [exact Hx|]. unfold not_mirrored. rewrite Hdv, Hm. reflexivity. }
  split.
  - intros Hex.
    destruct (is_ok (select_replica_mirrored h i s)) eqn:Hok; [|reflexivity].
    apply select_replica_mirrored_ok_inv in Hok.
    rewrite (Hbad Hex) in Hok. discriminate Hok.
  - intros Hi. rewrite (select_replica_mirrored_eval h i s Hi). split.
    + intros Hex. rewrite (Hbad Hex). reflexivity.
    + intros Hall.
      assert (Hnone : existsb (not_mirrored h) (leaves s) = false).
      { destruct (existsb (not_mirrored h) (leaves s)) eqn:E; [|reflexivity].
        apply existsb_exists in E. destruct E as [x [Hx Hb]].
        unfold not_mirrored in Hb. apply andb_true_iff in Hb.
        destruct Hb as [Hdv Hm]. rewrite (Hall x Hx Hdv) in Hm.
        discriminate Hm. }
      rewrite Hnone. split; [reflexivity | split].
      * intros x Hx Hdv. unfold mirrored_element.
        destruct (isinstance_v h x cls_Mirrored) eqn:Hm; [|reflexivity].
        destruct x as [o|k cs]; simpl in *; [|discriminate].
        rewrite (mirrored_is_distributed_values _ Hm) in Hdv. discriminate.
      * intros x Hx Hm.
        destruct (py_getitem_in_range _ _ (Hi x Hx Hm)) as [v [Hn Hg]].
        rewrite Hg. unfold mirrored_element. rewrite Hm. f_equal.
        symmetry. apply nth_error_nth. exact Hn.
Qed.

Lemma select_replica_mirrored_spec_witness :
  select_replica_mirrored heap_wrapped 1 (VNode NList [VRef 2; VRef 0])
    = Ok (VNode NList [VRef 1; VRef 0]) /\
  select_replica_mirrored heap_wrapped 1 (VNode NList [VRef 2; VRef 3])
    = Raise mirrored_error /\
  is_ok (select_replica_mirrored heap_wrapped 7
           (VNode NList [VRef 2; VRef 3])) = false.
Proof.
  assert (Hidx : forall s,
    (forall x, In x (leaves s) -> x = VRef 2 \/ x = VRef 0 \/ x = VRef 3) ->
    forall x, In x (leaves s) ->
      isinstance_v heap_wrapped x cls_Mirrored = true ->
      (0 <= 1 < Z.of_nat (List.length (values_of heap_wrapped x)))%Z).
  { intros s Hs x Hx Hm.
    destruct (Hs x Hx) as [-> | [-> | ->]]; simpl in *;
      try discriminate Hm; lia. }
  split; [| split].
  - apply (proj2 (select_replica_mirrored_spec heap_wrapped 1
                    (VNode NList [VRef 2; VRef 0]))).
    + apply Hidx. simpl. intuition.
    + intros x [<- | [<- | []]] Hdv; simpl in *;
        [reflexivity | discriminate Hdv].
  - apply (proj2 (select_replica_mirrored_spec heap_wrapped 1
                    (VNode NList [VRef 2; VRef 3]))).
    + apply Hidx. simpl. intuition.
    + exists (VRef 3). simpl. auto.
  - apply (proj1 (select_replica_mirrored_spec heap_wrapped 7
                    (VNode NList [VRef 2; VRef 3]))).
    exists (VRef 3). simpl. auto.
Defined.

(* ------------------------------------------------------------------ *)
(** ** select_replica and growth of the store *)

Lemma map_structure_ext (f g : value -> result value) (s : value) :
  (forall x, In x (leaves s) -> f x = g x) ->
  map_structure f s = map_structure g s.
Proof.
  induction s as [o | k cs IH] using value_ind; intros H.
  - simpl. apply H. left. reflexivity.
  - rewrite !map_structure_node. f_equal.
    apply mapM_ext_in. intros c Hc.
    rewrite Forall_forall in IH. apply (IH c Hc).
    intros x Hx. apply H. rewrite leaves_node. apply in_flat_map.
    exists c. split; assumption.
Qed.










(* ------------------------------------------------------------------ *)
(** ** regroup on structured values *)

Lemma regroup_from_node (wrap_class : list value -> M value)
  (k0 : node_kind) (cs0 : list value) (rest : list value) :
  regroup_from wrap_class (VNode k0 cs0) rest
  = (lift (check_structure k0 (List.length cs0) rest) ;;;
     regrouped <- regroup_loop (regroup_from wrap_class) rest cs0
                    (accessors k0 (List.length cs0)) ;;
     lift (rebuild k0 regrouped)).
Proof.
  cbn [regroup_from].
  match goal with
  | |- context [bind (?loop cs0 ?accs0) _] =>
      assert (Hloop : forall cs accs,
                loop cs accs
                = regroup_loop (regroup_from wrap_class) rest cs accs)
  end.
  { induction cs as [|c cs IH]; intros accs; [reflexivity|].
    destruct accs as [|acc accs]; [reflexivity|].
    cbn [regroup_loop]. rewrite <- IH. reflexivity. }
  rewrite Hloop. reflexivity.
Qed.





(* ------------------------------------------------------------------ *)
(** ** Lists indexed by position *)







Lemma for_all_ok (f : value -> result unit) (xs : list value) :
  (forall x, In x xs -> f x = Ok tt) -> for_all f xs = Ok tt.
Proof.
  induction xs as [|x xs IH]; intros H; simpl; [reflexivity|].
  rewrite (H x) by (left; reflexivity). simpl.
  apply IH. intros y Hy. apply H. right. exact Hy.
Qed.




(* ------------------------------------------------------------------ *)
(** ** The structured case of regroup *)









(* ------------------------------------------------------------------ *)
(** ** The round trip of regroup and select_replica *)







(* ================================================================== *)
(** * Further properties of the code *)

(* ------------------------------------------------------------------ *)
(** ** The strategy scope guard *)

Lemma strategy_is_refl (s : Strategy) : strategy_is s s = true.
Proof. unfold strategy_is. apply Nat.eqb_refl. Qed.

(** X1.  [_enter_or_assert_strategy] fails exactly when a strategy other
    than the given one is active.  When it lets the body run, the given
    strategy is the active one there and the update replica id is the
    one of the caller: with no scope active the body runs in the
    cross-replica context of the strategy, otherwise in the context of
    the caller. *)
Theorem enter_or_assert_strategy_establishes_scope :
  forall (env : Env) (strategy : Strategy),
    (forall env',
       _enter_or_assert_strategy env strategy = Ok env' ->
       has_strategy env' = true /\
       is_strategy (get_strategy env') strategy = true /\
       get_update_replica_id env' = get_update_replica_id env /\
       (has_strategy env = true -> env' = env) /\
       (has_strategy env = false ->
          mode env' = CrossReplicaThreadMode strategy)) /\
    (is_ok (_enter_or_assert_strategy env strategy) = false <->
     exists s, get_strategy env = Some s /\ strategy_is s strategy = false).
Proof.
  intros env strategy.
  unfold _enter_or_assert_strategy, _assert_strategy, has_strategy,
    get_strategy, get_update_replica_id.
  destruct (mode env) as [| s | s rid] eqn:Hm; simpl.
  - split.
    + intros env' H. injection H as <-. simpl.
      rewrite strategy_is_refl. repeat split; discriminate.
    + split; [discriminate|]. intros [s [Hs _]]. discriminate Hs.
  - destruct (strategy_is s strategy) eqn:Hs; simpl; split.
    + intros env' H. injection H as <-. rewrite Hm. simpl.
      repeat split; auto; discriminate.
    + split; [discriminate|]. intros [s' [Heq Hs']].
      injection Heq as <-. congruence.
    + intros env' H. discriminate H.
    + split; [|reflexivity]. intros _. exists s. split; auto.
  - destruct (strategy_is s strategy) eqn:Hs; simpl; split.
    + intros env' H. injection H as <-. rewrite Hm. simpl.
      repeat split; auto; discriminate.
    + split; [discriminate|]. intros [s' [Heq Hs']].
      injection Heq as <-. congruence.
    + intros env' H. discriminate H.
    + split; [|reflexivity]. intros _. exists s. split; auto.
Qed.

Lemma enter_or_assert_strategy_establishes_scope_witness :
  mode (enter_scope strategy_A env_default) = CrossReplicaThreadMode strategy_A /\
  is_ok (_enter_or_assert_strategy (env_cross strategy_B) strategy_A) = false.
Proof.
  split.
  - apply (proj1 (enter_or_assert_strategy_establishes_scope
                    env_default strategy_A)
             (enter_scope strategy_A env_default) eq_refl).
    reflexivity.
  - apply (proj2 (enter_or_assert_strategy_establishes_scope
                    (env_cross strategy_B) strategy_A)).
    exists strategy_B. split; reflexivity.
Defined.

Lemma enter_or_assert_foreign (env : Env) (s strategy : Strategy) :
  get_strategy env = Some s ->
  strategy_is s strategy = false ->
  _enter_or_assert_strategy env strategy
  = Raise (RuntimeError "Mixing different tf.distribute.Strategy objects").
Proof.
  intros Hg Hs.
  unfold _enter_or_assert_strategy, _assert_strategy, has_strategy,
    get_strategy in *.
  destruct (mode env); try discriminate Hg; injection Hg as ->; simpl;
    rewrite Hs; reflexivity.
Qed.

(** X2.  While the scope of another strategy is active, every update of a
    MirroredVariable, a SyncOnReadVariable or an AggregatingVariable
    raises the RuntimeError about mixed strategies, whatever the context,
    the aggregation and the arguments, and writes nothing. *)
Theorem update_under_foreign_strategy_fails :
  forall (extM : Strategy -> StrategyExtended oid)
         (extA : Strategy -> StrategyExtended AggregatingVariable.t)
         (env : Env) (s : Strategy) (h : heap) (self : oid)
         (agg : AggregatingVariable.t) (f : assign_op)
         (args : list value) (merge_args : list (list value)),
    get_strategy env = Some s ->
    let e := RuntimeError "Mixing different tf.distribute.Strategy objects" in
    (strategy_is s (_distribute_strategy (deref h self)) = false ->
       MirroredVariable._assign_func extM env self f args merge_args h
         = (Raise e, h) /\
       SyncOnReadVariable_method f env self args h = (Raise e, h)) /\
    (strategy_is s (AggregatingVariable._distribute_strategy agg) = false ->
       AggregatingVariable._assign_func extA env agg f args merge_args h
         = (Raise e, h)).
Proof.
  intros extM extA env s h self agg f args merge_args Hg e. split.
  - intros Hs. pose proof (enter_or_assert_foreign env _ _ Hg Hs) as He.
    split.
    + unfold MirroredVariable._assign_func, bind, read, lift.
      rewrite He. reflexivity.
    + destruct f; simpl;
        [ unfold SyncOnReadVariable.assign
        | unfold SyncOnReadVariable.assign_add
        | unfold SyncOnReadVariable.assign_sub ];
        unfold bind, read, lift; rewrite He; reflexivity.
  - intros Hs. pose proof (enter_or_assert_foreign env _ _ Hg Hs) as He.
    unfold AggregatingVariable._assign_func, bind, lift.
    rewrite He. reflexivity.
Qed.

Lemma update_under_foreign_strategy_fails_witness :
  let h := heap_sync MEAN float32 in
  SyncOnReadVariable.assign (env_cross strategy_B) 2 [VRef 3] h
    = (Raise (RuntimeError "Mixing different tf.distribute.Strategy objects"),
       h) /\
  AggregatingVariable.assign_add sample_extended_aggregating
    (env_replica strategy_B 0) sample_aggregating_variable [VRef 3] [] h
    = (Raise (RuntimeError "Mixing different tf.distribute.Strategy objects"),
       h).
Proof.
  intros h.
  destruct (update_under_foreign_strategy_fails sample_extended
              sample_extended_aggregating (env_cross strategy_B) strategy_B
              h 2 sample_aggregating_variable assign_fn [VRef 3] [] eq_refl)
    as [HM _].
  destruct (update_under_foreign_strategy_fails sample_extended
              sample_extended_aggregating (env_replica strategy_B 0)
              strategy_B h 2 sample_aggregating_variable assign_add_fn
              [VRef 3] [] eq_refl)
    as [_ HA].
  split.
  - apply (proj2 (HM eq_refl)).
  - apply HA. reflexivity.
Defined.

(* ------------------------------------------------------------------ *)
(** ** Updates that reach a single physical element *)

Lemma call_f_physical (f : assign_op) (h : heap) (o : oid) (a : value)
  (args : list value) :
  ob_class (deref h o) = cls_ResourceVariable ->
  call_f f (VRef o) (a :: args) h
  = (Ok (VRef o),
     update h o (set_tensor (deref h o)
                   (apply_assign f (ob_tensor (deref h o))
                      (element_tensor h a)))).
Proof.
  intros Hc. unfold call_f, bind, read, ret.
  rewrite variable_update_physical by exact Hc. reflexivity.
Qed.

(** The body of a [with _enter_or_assert_strategy] runs in cross-replica
    context when the caller is outside every scope or in the cross-replica
    context of the strategy. *)
Lemma enter_or_assert_cross_body (env : Env) (strategy : Strategy) :
  (mode env = DefaultReplicaThreadMode \/
   exists s, mode env = CrossReplicaThreadMode s /\
             strategy_is s strategy = true) ->
  exists env',
    _enter_or_assert_strategy env strategy = Ok env' /\
    in_cross_replica_context env' = true /\
    get_update_replica_id env' = get_update_replica_id env.
Proof.
  intros [Hm | [s [Hm Hs]]].
  - exists (enter_scope strategy env).
    unfold _enter_or_assert_strategy, has_strategy. rewrite Hm.
    repeat split.
  - exists env. destruct (enter_or_assert_own_cross env s strategy Hm Hs)
      as [He Hc]. repeat split; assumption.
Qed.

(** X3.  Inside an update context (an update replica id [i] is set) and
    outside every replica context, an update of a MirroredVariable applies
    the update function to the physical element [values[i]] alone, with
    the incoming value as it is, whatever the aggregation policy; an
    update of an AggregatingVariable applies it to the wrapped variable.
    No other object of the store changes. *)
Theorem update_context_writes_one_element :
  forall (extM : Strategy -> StrategyExtended oid)
         (extA : Strategy -> StrategyExtended AggregatingVariable.t)
         (env : Env) (h : heap) (self : oid) (agg : AggregatingVariable.t)
         (f : assign_op) (a : value) (args : list value)
         (merge_args : list (list value)) (i : Z) (o : oid),
    get_update_replica_id env = Some i ->
    ob_class (deref h o) = cls_ResourceVariable ->
    ((mode env = DefaultReplicaThreadMode \/
      exists s, mode env = CrossReplicaThreadMode s /\
                strategy_is s (_distribute_strategy (deref h self)) = true) ->
     (0 <= i < Z.of_nat (List.length (_values (deref h self))))%Z ->
     nth_error (_values (deref h self)) (Z.to_nat i) = Some (VRef o) ->
       MirroredVariable._assign_func extM env self f (a :: args) merge_args h
       = (Ok (VRef o),
          update h o (set_tensor (deref h o)
                        (apply_assign f (ob_tensor (deref h o))
                           (element_tensor h a))))) /\
    ((mode env = DefaultReplicaThreadMode \/
      exists s, mode env = CrossReplicaThreadMode s /\
                strategy_is s (AggregatingVariable._distribute_strategy agg)
                = true) ->
     AggregatingVariable._v agg = VRef o ->
       AggregatingVariable._assign_func extA env agg f (a :: args)
         merge_args h
       = (Ok (VRef o),
          update h o (set_tensor (deref h o)
                        (apply_assign f (ob_tensor (deref h o))
                           (element_tensor h a))))).
Proof.
  intros extM extA env h self agg f a args merge_args i o Hu Hc. split.
  - intros Hmode Hi Hn.
    destruct (enter_or_assert_cross_body env _ Hmode)
      as [env' [He [Hcross Hu']]].
    destruct (py_getitem_in_range _ _ Hi) as [v [Hv Hg]].
    rewrite Hn in Hv. injection Hv as <-.
    unfold MirroredVariable._assign_func, bind, read, lift.
    rewrite He, Hcross, Hu', Hu, Hg.
    apply call_f_physical. exact Hc.
  - intros Hmode Hv.
    destruct (enter_or_assert_cross_body env _ Hmode)
      as [env' [He [Hcross Hu']]].
    unfold AggregatingVariable._assign_func, bind, lift.
    rewrite He, Hcross, Hu', Hu, Hv.
    apply call_f_physical. exact Hc.
Qed.

Lemma update_context_writes_one_element_witness :
  let h := heap_mirrored NONE float32 (Qc_of_Z 1) (Qc_of_Z 5) in
  MirroredVariable.assign_add sample_extended (env_update strategy_A 1) 2
    [VRef 4] [] h
  = (Ok (VRef 1),
     update h 1 (set_tensor (deref h 1) (Qc_of_Z 2 + Qc_of_Z 5)%Qc)).
Proof.
  intros h.
  apply (proj1 (update_context_writes_one_element sample_extended
                  sample_extended_aggregating (env_update strategy_A 1) h 2
                  sample_aggregating_variable assign_add_fn (VRef 4) [] []
                  1%Z 1 eq_refl eq_refl)).
  - right. exists strategy_A. split; reflexivity.
  - simpl. lia.
  - reflexivity.
Defined.

(** X4.  Outside every replica context and without an update replica id
    (in the cross-replica context of the own strategy, or outside every
    strategy scope, where the scope of the own strategy is entered), an
    update of a MirroredVariable or of an AggregatingVariable is the
    [extended.update] of the own strategy with the same update function
    and arguments.  No aggregation method is asked for: the update does
    not fail for aggregation NONE. *)
Theorem cross_replica_update_delegates :
  forall (extM : Strategy -> StrategyExtended oid)
         (extA : Strategy -> StrategyExtended AggregatingVariable.t)
         (env : Env) (h : heap) (self : oid) (agg : AggregatingVariable.t)
         (f : assign_op) (args : list value)
         (merge_args : list (list value)),
    get_update_replica_id env = None ->
    ((mode env = DefaultReplicaThreadMode \/
      exists s, mode env = CrossReplicaThreadMode s /\
                strategy_is s (_distribute_strategy (deref h self)) = true) ->
       MirroredVariable._assign_func extM env self f args merge_args h
       = extended_update (extM (_distribute_strategy (deref h self)))
           self f args h) /\
    ((mode env = DefaultReplicaThreadMode \/
      exists s, mode env = CrossReplicaThreadMode s /\
                strategy_is s (AggregatingVariable._distribute_strategy agg)
                = true) ->
       AggregatingVariable._assign_func extA env agg f args merge_args h
       = extended_update
           (extA (AggregatingVariable._distribute_strategy agg))
           agg f args h).
Proof.
  intros extM extA env h self agg f args merge_args Hu. split.
  - intros Hmode.
    destruct (enter_or_assert_cross_body env _ Hmode)
      as [env' [He [Hcross Hu']]].
    unfold MirroredVariable._assign_func, bind, read, lift.
    rewrite He, Hcross, Hu', Hu. reflexivity.
  - intros Hmode.
    destruct (enter_or_assert_cross_body env _ Hmode)
      as [env' [He [Hcross Hu']]].
    unfold AggregatingVariable._assign_func, bind, lift.
    rewrite He, Hcross, Hu', Hu. reflexivity.
Qed.

Lemma cross_replica_update_delegates_witness :
  let h := heap_mirrored NONE float32 (Qc_of_Z 1) (Qc_of_Z 5) in
  MirroredVariable.assign sample_extended env_default 2 [VRef 3] [] h
  = sample_update 2 assign_fn [VRef 3] h.
Proof.
  intros h.
  apply (proj1 (cross_replica_update_delegates sample_extended
                  sample_extended_aggregating env_default h 2
                  sample_aggregating_variable assign_fn [VRef 3] []
                  eq_refl)).
  left. reflexivity.
Defined.

(* ------------------------------------------------------------------ *)
(** ** The merge of a replica-context update *)



(* ------------------------------------------------------------------ *)
(** ** Replica-local writes of a SyncOnReadVariable *)

(** X6.  In the replica context of its own strategy, with replica id [i],
    each of [assign], [assign_add] and [assign_sub] of a
    SyncOnReadVariable applies its update with the incoming value to the
    physical element [values[i]] alone.  No other element changes, and the
    aggregation policy plays no part: under SUM the incremental updates
    that are refused in cross-replica context go through. *)
Theorem sync_on_read_replica_write_is_local :
  forall (env : Env) (s : Strategy) (i : Z) (h : heap) (self : oid)
         (f : assign_op) (a : value) (args : list value) (o : oid),
    mode env = InReplicaThreadMode s (ReplicaIdInt i) ->
    strategy_is s (_distribute_strategy (deref h self)) = true ->
    (0 <= i < Z.of_nat (List.length (_values (deref h self))))%Z ->
    nth_error (_values (deref h self)) (Z.to_nat i) = Some (VRef o) ->
    ob_class (deref h o) = cls_ResourceVariable ->
    SyncOnReadVariable_method f env self (a :: args) h
    = (Ok tt,
       update h o (set_tensor (deref h o)
                     (apply_assign f (ob_tensor (deref h o))
                        (element_tensor h a)))).
Proof.
  intros env s i h self f a args o Hm Hs Hi Hn Hc.
  destruct (enter_or_assert_own_replica env _ _ _ Hm Hs) as [He [Hcross _]].
  destruct (py_getitem_in_range _ _ Hi) as [v [Hv Hg]].
  rewrite Hn in Hv. injection Hv as <-.
  assert (Hget : get env self h = (Ok (VRef o), h)).
  { unfold get, _get_current_replica_id_as_int, get_replica_context.
    rewrite Hm. simpl. rewrite Hg. reflexivity. }
  destruct f; simpl;
    [ unfold SyncOnReadVariable.assign
    | unfold SyncOnReadVariable.assign_add
    | unfold SyncOnReadVariable.assign_sub ];
    unfold bind at 1; unfold read at 1; unfold bind at 1; unfold lift at 1;
    rewrite He, Hcross; unfold bind at 1; rewrite Hget;
    unfold bind; rewrite (call_f_physical _ h o a args Hc); reflexivity.
Qed.

Lemma sync_on_read_replica_write_is_local_witness :
  let h := heap_sync SUM float32 in
  SyncOnReadVariable.assign_add (env_replica strategy_A 1) 2 [VRef 3] h
  = (Ok tt, update h 1 (set_tensor (deref h 1) (Qc_of_Z 2 + Qc_of_Z 6)%Qc)).
Proof.
  intros h.
  apply (sync_on_read_replica_write_is_local (env_replica strategy_A 1)
           strategy_A 1%Z h 2 assign_add_fn (VRef 3) [] 1
           eq_refl eq_refl ltac:(simpl; lia) eq_refl eq_refl).
Defined.

(* ------------------------------------------------------------------ *)
(** ** Reads in cross-replica context *)

Lemma py_getitem_In {A} (l : list A) (i : Z) (x : A) :
  py_getitem l i = Ok x -> In x l.
Proof.
  unfold py_getitem.
  destruct ((_ <? 0)%Z || (_ <=? _)%Z)%bool; [discriminate|].
  destruct (nth_error l _) as [y|] eqn:E; [|discriminate].
  intros H. injection H as <-. eapply nth_error_In. exact E.
Qed.

Lemma find_on_device_find (env : Env) (h : heap) (values : list value) :
  Forall (fun v => is_ok (getattr_device h v) = true) values ->
  find_on_device env h (canonicalize env (current_device env)) values
  = Ok (find (on_current_device env h) values).
Proof.
  induction 1 as [|v values Hv _ IH]; simpl; [reflexivity|].
  unfold on_current_device.
  destruct (getattr_device h v) as [d|e]; [|discriminate Hv]. simpl.
  destruct (String.eqb (canonicalize env d)
              (canonicalize env (current_device env))); [reflexivity|].
  exact IH.
Qed.

Lemma find_on_device_In (env : Env) (h : heap) (current : string)
  (values : list value) (v : value) :
  find_on_device env h current values = Ok (Some v) -> In v values.
Proof.
  induction values as [|w values IH]; simpl; [discriminate|].
  destruct (getattr_device h w) as [d|e]; simpl; [|discriminate].
  destruct (String.eqb (canonicalize env d) current).
  - intros H. injection H as <-. left. reflexivity.
  - intros H. right. apply IH. exact H.
Qed.

Lemma get_closest_In (env : Env) (h : heap) (self : oid) (v : value) :
  _get_closest env h self = Ok v -> In v (_values (deref h self)).
Proof.
  unfold _get_closest, primary.
  destruct (_get_current_replica_id_as_int env) as [i|].
  - apply py_getitem_In.
  - destruct (find_on_device env h _ (_values (deref h self)))
      as [[w|]|e] eqn:E; simpl.
    + intros H. injection H as <-. eapply find_on_device_In. exact E.
    + apply py_getitem_In.
    + discriminate.
Qed.

(** X7.  [_get_closest] only ever returns one of the stored values.
    With no replica id active and every element carrying a device, it is
    the first element, in replica order, whose canonical device is the
    canonical current device, and the primary element when there is none
    (IndexError for a container without elements). *)
Theorem get_closest_prefers_current_device :
  forall (env : Env) (h : heap) (self : oid),
    (forall v, _get_closest env h self = Ok v ->
               In v (_values (deref h self))) /\
    (_get_current_replica_id_as_int env = None ->
     Forall (fun v => is_ok (getattr_device h v) = true)
            (_values (deref h self)) ->
     _get_closest env h self =
       match find (on_current_device env h) (_values (deref h self)) with
       | Some v => Ok v
       | None => match _values (deref h self) with
                 | v :: _ => Ok v
                 | [] => Raise IndexError
                 end
       end).
Proof.
  intros env h self. split.
  - intros v. apply get_closest_In.
  - intros Hid Hdev. unfold _get_closest, primary. rewrite Hid.
    rewrite (find_on_device_find env h _ Hdev). simpl.
    destruct (find (on_current_device env h) (_values (deref h self)));
      [reflexivity|].
    destruct (_values (deref h self)); reflexivity.
Qed.

Lemma get_closest_prefers_current_device_witness :
  _get_closest
    {| mode := CrossReplicaThreadMode strategy_A; update_replica_id := None;
       current_device := "/device:GPU:1"; canonicalize := fun d => d |}
    (heap_container cls_Mirrored) 2 = Ok (VRef 1) /\
  _get_closest (env_cross strategy_A) (heap_container cls_Mirrored) 2
    = Ok (VRef 0).
Proof.
  split.
  - apply (proj2 (get_closest_prefers_current_device
             {| mode := CrossReplicaThreadMode strategy_A;
                update_replica_id := None;
                current_device := "/device:GPU:1";
                canonicalize := fun d => d |}
             (heap_container cls_Mirrored) 2) eq_refl).
    repeat constructor.
  - apply (proj2 (get_closest_prefers_current_device
             (env_cross strategy_A) (heap_container cls_Mirrored) 2)
             eq_refl).
    repeat constructor.
Defined.

(** X8.  In cross-replica context with no update replica id, [get] of a
    Mirrored value returns one of its elements itself and leaves the store
    alone, whereas [get] of a MirroredVariable never returns an element:
    it returns a freshly allocated tensor that holds the content of the
    closest element, and no object that existed before is changed. *)
Theorem mirrored_cross_replica_read :
  forall (env : Env) (h : heap) (self : oid) (o : oid),
    _get_current_replica_id_as_int env = None ->
    _get_closest env h self = Ok (VRef o) ->
    (ob_class (deref h self) = cls_Mirrored ->
       get env self h = (Ok (VRef o), h) /\
       In (VRef o) (_values (deref h self))) /\
    (ob_class (deref h self) = cls_MirroredVariable ->
       exists h',
         get env self h = (Ok (VRef (List.length h)), h') /\
         (forall o', o' < List.length h ->
            VRef (List.length h) <> VRef o' /\ deref h' o' = deref h o') /\
         ob_tensor (deref h' (List.length h)) = ob_tensor (deref h o) /\
         ob_class (deref h' (List.length h)) = cls_object).
Proof.
  intros env h self o Hid Hclosest. split.
  - intros Hc. split.
    + unfold get, _get_cross_replica. rewrite Hid, Hc.
      unfold Mirrored__get_cross_replica. rewrite Hclosest. reflexivity.
    + apply (get_closest_In env h self). exact Hclosest.
  - intros Hc.
    exists (h ++ [new_tensor (ob_tensor (deref h o)) (ob_dtype (deref h o))
                    (ob_device (deref h o))]).
    split; [| split; [| split]].
    + unfold get, _get_cross_replica. rewrite Hid, Hc.
      unfold MirroredVariable__get_cross_replica,
        Mirrored__get_cross_replica, bind. rewrite Hclosest.
      reflexivity.
    + intros o' Ho'. split.
      * intros Heq. injection Heq as Heq. lia.
      * apply deref_app. exact Ho'.
    + rewrite deref_app_new. reflexivity.
    + rewrite deref_app_new. reflexivity.
Qed.

Lemma mirrored_cross_replica_read_witness :
  get (env_cross strategy_A) 2 (heap_container cls_Mirrored)
    = (Ok (VRef 0), heap_container cls_Mirrored) /\
  fst (get (env_cross strategy_A) 2
         (heap_variable cls_MirroredVariable SUM float32 (Qc_of_Z 2)))
    = Ok (VRef 3).
Proof.
  split.
  - apply (proj1 (mirrored_cross_replica_read (env_cross strategy_A)
                    (heap_container cls_Mirrored) 2 0 eq_refl eq_refl)).
    reflexivity.
  - destruct (proj2 (mirrored_cross_replica_read (env_cross strategy_A)
                (heap_variable cls_MirroredVariable SUM float32 (Qc_of_Z 2))
                2 0 eq_refl eq_refl) eq_refl) as [h' [Hget _]].
    rewrite Hget. reflexivity.
Defined.

(** X9.  The cross-replica read of a SyncOnReadVariable with aggregation
    ONLY_FIRST_REPLICA is its primary element, unreduced, and it is not
    guarded by the strategy scope: it is returned even while another
    strategy is active.  With any other aggregation the read under the
    scope of another strategy raises the RuntimeError about mixed
    strategies.  The store is unchanged in both cases. *)
Theorem sync_on_read_first_replica_read :
  forall (env : Env) (h : heap) (self : oid),
    _get_current_replica_id_as_int env = None ->
    ob_class (deref h self) = cls_SyncOnReadVariable ->
    (_aggregation (deref h self) = ONLY_FIRST_REPLICA ->
       get env self h = (py_getitem (_values (deref h self)) 0, h)) /\
    (_aggregation (deref h self) <> ONLY_FIRST_REPLICA ->
     forall s, get_strategy env = Some s ->
       strategy_is s (_distribute_strategy (deref h self)) = false ->
       get env self h
       = (Raise (RuntimeError
                   "Mixing different tf.distribute.Strategy objects"), h)).
Proof.
  intros env h self Hid Hc. split.
  - intros Ha. unfold get, _get_cross_replica. rewrite Hid, Hc.
    unfold SyncOnReadVariable__get_cross_replica, bind, read.
    rewrite Ha. reflexivity.
  - intros Ha s Hg Hs. unfold get, _get_cross_replica. rewrite Hid, Hc.
    unfold SyncOnReadVariable__get_cross_replica, bind, read, lift.
    rewrite (enter_or_assert_foreign env _ _ Hg Hs).
    destruct (_aggregation (deref h self)); try reflexivity.
    contradiction Ha. reflexivity.
Qed.

Lemma sync_on_read_first_replica_read_witness :
  get (env_cross strategy_B) 2 (heap_sync ONLY_FIRST_REPLICA float32)
    = (Ok (VRef 0), heap_sync ONLY_FIRST_REPLICA float32) /\
  get (env_cross strategy_B) 2 (heap_sync SUM float32)
    = (Raise (RuntimeError "Mixing different tf.distribute.Strategy objects"),
       heap_sync SUM float32).
Proof.
  split.
  - apply (proj1 (sync_on_read_first_replica_read (env_cross strategy_B)
                    (heap_sync ONLY_FIRST_REPLICA float32) 2
                    eq_refl eq_refl)).
    reflexivity.
  - apply (proj2 (sync_on_read_first_replica_read (env_cross strategy_B)
                    (heap_sync SUM float32) 2 eq_refl eq_refl)
             ltac:(discriminate) strategy_B eq_refl eq_refl).
Defined.

(* ------------------------------------------------------------------ *)
(** ** regroup: mismatches, shared containers, replica-invariant values *)

Lemma for_all_assertion_fails (f : value -> result unit) (xs : list value) :
  (forall x, In x xs -> f x = Ok tt \/ f x = Raise AssertionError) ->
  (exists x, In x xs /\ f x = Raise AssertionError) ->
  for_all f xs = Raise AssertionError.
Proof.
  induction xs as [|x xs IH]; intros Hall [y [Hy Hf]]; [destruct Hy|].
  simpl. destruct (Hall x (or_introl eq_refl)) as [Hx | Hx]; rewrite Hx;
    [|reflexivity].
  simpl. apply IH.
  - intros z Hz. apply Hall. right. exact Hz.
  - destruct Hy as [<- | Hy]; [congruence|]. exists y. split; assumption.
Qed.

Lemma assert_cases (b c : bool) :
  rbind (assert b) (fun _ => assert c) =
    if b && c then Ok tt else Raise AssertionError.
Proof. destruct b, c; reflexivity. Qed.

(** X10.  A structured first value makes [regroup] check the values of
    the other replicas before anything is built: for a list, every other
    value must be a list of the same length; for a tuple, a tuple or
    namedtuple of the same length; for a dict, a dict with the same key
    set.  If some replica's value does not pass, [regroup] raises
    AssertionError, builds no container and leaves the store unchanged. *)
Theorem regroup_rejects_mismatched_structures :
  forall (wrap_class : list value -> M value) (h : heap)
         (k0 : node_kind) (cs0 : list value) (rest : list value) (v : value),
    In v rest ->
    match k0 with
    | NList => is_list v && Nat.eqb (len v) (List.length cs0) = false
    | NTuple | NNamedTuple _ =>
        is_tuple v && Nat.eqb (len v) (List.length cs0) = false
    | NDict keys0 => is_dict v && same_key_set (keys_of v) keys0 = false
    end ->
    regroup (VNode k0 cs0 :: rest) wrap_class h = (Raise AssertionError, h).
Proof.
  intros wrap_class h k0 cs0 rest v Hin Hbad.
  assert (Hcheck : check_structure k0 (List.length cs0) rest
                   = Raise AssertionError).
  { destruct k0; simpl; apply for_all_assertion_fails;
      try (intros x _; rewrite assert_cases;
           match goal with |- context [if ?b then _ else _] =>
             destruct b end; auto);
      exists v; (split; [exact Hin|]); rewrite assert_cases, Hbad;
      reflexivity. }
  unfold regroup. rewrite regroup_from_node. unfold bind at 1.
  unfold lift at 1. rewrite Hcheck. reflexivity.
Qed.

Lemma regroup_rejects_mismatched_structures_witness :
  regroup [VNode NList [VRef 0; VRef 1]; VNode NList [VRef 2]]
    PerReplica heap_tensors = (Raise AssertionError, heap_tensors) /\
  regroup [VNode (NDict [KStr "a"]) [VRef 0];
           VNode (NDict [KStr "b"]) [VRef 1]]
    PerReplica heap_tensors = (Raise AssertionError, heap_tensors) /\
  regroup [VNode NTuple [VRef 0]; VNode NList [VRef 1]]
    PerReplica heap_tensors = (Raise AssertionError, heap_tensors).
Proof.
  split; [| split].
  - apply (regroup_rejects_mismatched_structures PerReplica heap_tensors
             NList [VRef 0; VRef 1] [VNode NList [VRef 2]]
             (VNode NList [VRef 2])); [left|]; reflexivity.
  - apply (regroup_rejects_mismatched_structures PerReplica heap_tensors
             (NDict [KStr "a"]) [VRef 0] [VNode (NDict [KStr "b"]) [VRef 1]]
             (VNode (NDict [KStr "b"]) [VRef 1])); [left|]; reflexivity.
  - apply (regroup_rejects_mismatched_structures PerReplica heap_tensors
             NTuple [VRef 0] [VNode NList [VRef 1]]
             (VNode NList [VRef 1])); [left|]; reflexivity.
Defined.

Lemma not_mirrored_variable_of_not_variable (ob : object) :
  isinstance ob cls_DistributedVariable = false ->
  isinstance ob cls_MirroredVariable = false.
Proof.
  unfold isinstance. destruct (ob_class ob); simpl; intros H;
    try reflexivity; discriminate H.
Qed.

(** X11.  When every replica supplies an element of one and the same
    distributed variable (each value carries a [_distributed_container]
    back-reference to the same live container and the first is not itself
    a distributed variable), [regroup] returns that variable, the one
    [value_container] finds from each of these elements, whether or not
    the replicas supply the same element; no wrapper is built.  When the
    container of the first element is gone, or another replica's value
    refers to another container or to one that is gone, it raises
    AssertionError. *)
Theorem regroup_elements_returns_container :
  forall (wrap_class : list value -> M value) (h : heap)
         (o0 : oid) (rest : list value) (c : oid),
    isinstance_v h (VRef o0) cls_DistributedVariable = false ->
    (call__distributed_container h (VRef o0) = Ok (Some c) ->
     (forall v, In v rest -> call__distributed_container h v = Ok (Some c)) ->
       regroup (VRef o0 :: rest) wrap_class h = (Ok (VRef c), h) /\
       value_container h (VRef o0) = Ok (VRef c) /\
       (forall v, In v rest ->
          isinstance_v h v cls_DistributedVariable = false ->
          value_container h v = Ok (VRef c))) /\
    (call__distributed_container h (VRef o0) = Ok None ->
       regroup (VRef o0 :: rest) wrap_class h = (Raise AssertionError, h)) /\
    (call__distributed_container h (VRef o0) = Ok (Some c) ->
     (forall v, In v rest ->
        exists r, call__distributed_container h v = Ok r) ->
     (exists v, In v rest /\ call__distributed_container h v <> Ok (Some c)) ->
       regroup (VRef o0 :: rest) wrap_class h = (Raise AssertionError, h)).
Proof.
  intros wrap_class h o0 rest c Hnv.
  assert (Hattr : forall r, call__distributed_container h (VRef o0) = Ok r ->
            hasattr__distributed_container h (VRef o0) = true).
  { intros r. simpl.
    destruct (_distributed_container (deref h o0)); [reflexivity|discriminate]. }
  assert (Hstart : forall r,
    call__distributed_container h (VRef o0) = Ok r ->
    regroup (VRef o0 :: rest) wrap_class h =
      match
        match r with
        | None => Raise AssertionError
        | Some c0 =>
            rbind (for_all (fun v =>
                     rbind (call__distributed_container h v) (fun c' =>
                       match c' with
                       | Some c'' => assert (Nat.eqb c0 c'')
                       | None => Raise AssertionError
                       end)) rest)
                  (fun _ => Ok (VRef c0))
        end
      with
      | Ok r' => (Ok r', h)
      | Raise e => (Raise e, h)
      end).
  { intros r Hr. unfold regroup. cbn [regroup_from]. unfold regroup_leaf.
    assert (Hnm : isinstance_v h (VRef o0) cls_MirroredVariable = false)
      by (apply not_mirrored_variable_of_not_variable; exact Hnv).
    rewrite (Hattr r Hr). rewrite Hnv. simpl orb. rewrite andb_false_r.
    rewrite Hnm, Hr. reflexivity. }
  split; [| split].
  - intros Hc0 Hrest. split; [| split].
    + rewrite (Hstart _ Hc0).
      rewrite for_all_ok; [reflexivity|].
      intros v Hv. rewrite (Hrest v Hv). simpl. rewrite Nat.eqb_refl.
      reflexivity.
    + rewrite value_container_cases, (Hattr _ Hc0), Hnv, Hc0. reflexivity.
    + intros v Hv Hvn. rewrite value_container_cases, Hvn, (Hrest v Hv).
      assert (Hav : hasattr__distributed_container h v = true).
      { pose proof (Hrest v Hv) as Hr. destruct v as [o|k cs]; simpl in *;
          [|discriminate].
        destruct (_distributed_container (deref h o));
          [reflexivity | discriminate]. }
      rewrite Hav. reflexivity.
  - intros Hc0. rewrite (Hstart _ Hc0). reflexivity.
  - intros Hc0 Hhas [v [Hv Hne]]. rewrite (Hstart _ Hc0).
    rewrite for_all_assertion_fails; [reflexivity| |].
    + intros x Hx. destruct (Hhas x Hx) as [[c'|] Hr]; rewrite Hr; simpl;
        [|right; reflexivity].
      destruct (Nat.eqb c c'); [left | right]; reflexivity.
    + exists v. split; [exact Hv|].
      destruct (Hhas v Hv) as [[c'|] Hr]; rewrite Hr; simpl; [|reflexivity].
      destruct (Nat.eqb_spec c c') as [->|]; [|reflexivity].
      contradiction.
Qed.

Lemma regroup_elements_returns_container_witness :
  let h := heap_variable cls_SyncOnReadVariable SUM float32 (Qc_of_Z 2) in
  regroup [VRef 0; VRef 1] PerReplica h = (Ok (VRef 2), h) /\
  value_container h (VRef 1) = Ok (VRef 2) /\
  regroup [VRef 0; VRef 0] PerReplica heap_orphan
    = (Raise AssertionError, heap_orphan).
Proof.
  intros h.
  destruct (proj1 (regroup_elements_returns_container PerReplica h 0
                     [VRef 1] 2 eq_refl) eq_refl) as [Hr [_ Hv]].
  { intros v [<- | []]. reflexivity. }
  split; [exact Hr | split].
  - apply Hv; [left|]; reflexivity.
  - apply (proj1 (proj2 (regroup_elements_returns_container PerReplica
                           heap_orphan 0 [VRef 0] 0 eq_refl))).
    reflexivity.
Defined.





(* ------------------------------------------------------------------ *)
(** ** select_replica and select_replica_mirrored compared *)

Lemma map_structure_identity (f : value -> result value) (s : value) :
  (forall x, In x (leaves s) -> f x = Ok x) -> map_structure f s = Ok s.
Proof.
  induction s as [o | k cs IH] using value_ind; intros H.
  - simpl. apply H. left. reflexivity.
  - rewrite map_structure_node.
    rewrite (mapM_pointwise (map_structure f) cs cs); [reflexivity|].
    rewrite Forall_forall in IH.
    assert (Hcs : forall c, In c cs -> map_structure f c = Ok c).
    { intros c Hc. apply (IH c Hc). intros x Hx. apply H.
      rewrite leaves_node. apply in_flat_map. exists c. split; assumption. }
    clear IH H. induction cs as [|c cs IHcs]; constructor.
    + apply Hcs. left. reflexivity.
    + apply IHcs. intros c' Hc'. apply Hcs. right. exact Hc'.
Qed.

(** X13.  [select_replica] leaves alone every value without a leaf to
    slice: when each leaf is a distributed variable or no distributed
    value at all, the result is the value itself, for every replica id,
    in range or not. *)
Theorem select_replica_keeps_variables_and_plain_values :
  forall (h : heap) (i : Z) (s : value),
    (forall x, In x (leaves s) ->
       isinstance_v h x cls_DistributedVariable = true \/
       isinstance_v h x cls_DistributedValues = false) ->
    select_replica h i s = Ok s.
Proof.
  intros h i s H. unfold select_replica. apply map_structure_identity.
  intros x Hx. unfold _get.
  destruct (H x Hx) as [Hv | Hd]; rewrite ?Hv, ?Hd; [reflexivity|].
  destruct (isinstance_v h x cls_DistributedVariable); reflexivity.
Qed.

Lemma select_replica_keeps_variables_and_plain_values_witness :
  let h := heap_variable cls_SyncOnReadVariable SUM float32 (Qc_of_Z 2) in
  select_replica h 7 (VNode NList [VRef 2; VNode NTuple [VRef 0]])
    = Ok (VNode NList [VRef 2; VNode NTuple [VRef 0]]).
Proof.
  intros h.
  apply (select_replica_keeps_variables_and_plain_values h 7
           (VNode NList [VRef 2; VNode NTuple [VRef 0]])).
  intros x [<- | [<- | []]]; [left | right]; reflexivity.
Defined.

(** X14.  [select_replica] and [select_replica_mirrored] agree, for every
    replica id, on values whose distributed leaves are all Mirrored and
    not variables.  They differ on distributed variables, which
    [select_replica] always returns unchanged: for a MirroredVariable
    [select_replica_mirrored] returns the physical element [values[i]]
    instead, and for a distributed variable that is not mirrored (a
    SyncOnReadVariable) it raises the TypeError. *)
Theorem select_replica_versus_mirrored :
  forall (h : heap) (i : Z),
    (forall s,
       (forall x, In x (leaves s) ->
          isinstance_v h x cls_DistributedValues = true ->
          isinstance_v h x cls_Mirrored = true /\
          isinstance_v h x cls_DistributedVariable = false) ->
       select_replica h i s = select_replica_mirrored h i s) /\
    (forall o,
       isinstance_v h (VRef o) cls_DistributedVariable = true ->
       select_replica h i (VRef o) = Ok (VRef o) /\
       (isinstance_v h (VRef o) cls_Mirrored = true ->
          select_replica_mirrored h i (VRef o)
          = py_getitem (_values (deref h o)) i) /\
       (isinstance_v h (VRef o) cls_Mirrored = false ->
          select_replica_mirrored h i (VRef o) = Raise mirrored_error)).
Proof.
  intros h i. split.
  - intros s H. unfold select_replica, select_replica_mirrored.
    apply map_structure_ext. intros x Hx. unfold _get, _get_mirrored.
    destruct (isinstance_v h x cls_DistributedValues) eqn:Hd.
    + destruct (H x Hx Hd) as [Hm Hv]. rewrite Hm, Hv. reflexivity.
    + destruct (isinstance_v h x cls_DistributedVariable); reflexivity.
  - intros o Hv.
    assert (Hd : isinstance_v h (VRef o) cls_DistributedValues = true).
    { simpl in *. unfold isinstance in *.
      destruct (ob_class (deref h o)); try discriminate Hv; reflexivity. }
    unfold select_replica, select_replica_mirrored. cbn [map_structure].
    unfold _get, _get_mirrored. rewrite Hv, Hd. repeat split.
    + intros Hm. rewrite Hm. reflexivity.
    + intros Hm. rewrite Hm. reflexivity.
Qed.

Lemma select_replica_versus_mirrored_witness :
  let h := heap_variable cls_MirroredVariable SUM float32 (Qc_of_Z 2) in
  select_replica h 1 (VRef 2) = Ok (VRef 2) /\
  select_replica_mirrored h 1 (VRef 2) = Ok (VRef 1) /\
  select_replica heap_wrapped 1 (VNode NList [VRef 2; VRef 0])
    = select_replica_mirrored heap_wrapped 1 (VNode NList [VRef 2; VRef 0]).
Proof.
  intros h.
  destruct (proj2 (select_replica_versus_mirrored h 1) 2 eq_refl)
    as [Hs [Hm _]].
  split; [exact Hs | split].
  - rewrite (Hm eq_refl). reflexivity.
  - apply (proj1 (select_replica_versus_mirrored heap_wrapped 1)).
    intros x [<- | [<- | []]] Hd; simpl in *;
      [split; reflexivity | discriminate Hd].
Defined.

(* ------------------------------------------------------------------ *)
(** ** Construction and the back-references of the elements *)

Lemma existsb_is_same_In (o : oid) (values : list value) :
  existsb (fun v => is_same v (VRef o)) values = true <-> In (VRef o) values.
Proof.
  rewrite existsb_exists. split.
  - intros [v [Hv Hs]]. destruct v as [o'|k cs]; simpl in Hs; [|discriminate].
    apply Nat.eqb_eq in Hs. subst. exact Hv.
  - intros H. exists (VRef o). split; [exact H|]. simpl. apply Nat.eqb_refl.
Qed.

Lemma set_containers (self : oid) :
  forall (values : list value) (h : heap),
    Forall (fun v => exists o, v = VRef o /\ o < List.length h) values ->
    exists h',
      for_each (fun v => setattr__distributed_container v self) values h
        = (Ok tt, h') /\
      List.length h' = List.length h /\
      forall o,
        deref h' o =
          if existsb (fun v => is_same v (VRef o)) values
          then set_container (deref h o) (Some self)
          else deref h o.
Proof.
  induction values as [|v values IH]; intros h Hv.
  - exists h. repeat split.
  - inversion Hv as [|? ? [o [-> Ho]] Hrest]; subst.
    set (h1 := update h o (set_container (deref h o) (Some self))).
    assert (Hrest1 : Forall (fun v => exists o, v = VRef o /\
                                       o < List.length h1) values).
    { eapply Forall_impl; [|exact Hrest]. intros v [o' [-> Ho']].
      exists o'. split; [reflexivity|]. unfold h1.
      rewrite length_update. exact Ho'. }
    destruct (IH h1 Hrest1) as [h' [Hrun [Hlen Hd]]].
    exists h'. split; [| split].
    + cbn [for_each]. unfold bind. simpl. fold h1. exact Hrun.
    + rewrite Hlen. unfold h1. apply length_update.
    + intros o'. rewrite Hd. cbn [existsb is_same].
      destruct (Nat.eqb_spec o o') as [<- | Hne].
      * unfold h1. rewrite deref_update_eq by exact Ho. simpl.
        destruct (existsb _ values); reflexivity.
      * unfold h1. rewrite deref_update_neq by exact Hne. reflexivity.
Qed.

Lemma regroup_shared_container (wrap_class : list value -> M value)
  (h : heap) (o0 : oid) (rest : list value) (c : oid) :
  isinstance_v h (VRef o0) cls_DistributedVariable = false ->
  call__distributed_container h (VRef o0) = Ok (Some c) ->
  (forall v, In v rest -> call__distributed_container h v = Ok (Some c)) ->
  regroup (VRef o0 :: rest) wrap_class h = (Ok (VRef c), h).
Proof.
  intros Hnv Hc0 Hrest.
  assert (Hattr : hasattr__distributed_container h (VRef o0) = true).
  { simpl in *. destruct (_distributed_container (deref h o0));
      [reflexivity | discriminate]. }
  assert (Hnm : isinstance_v h (VRef o0) cls_MirroredVariable = false)
    by (apply not_mirrored_variable_of_not_variable; exact Hnv).
  unfold regroup. cbn [regroup_from]. unfold regroup_leaf.
  rewrite Hattr, Hnv. simpl orb. rewrite andb_false_r.
  rewrite Hnm, Hc0. simpl.
  rewrite for_all_ok; [reflexivity|].
  intros v Hv. rewrite (Hrest v Hv). simpl. rewrite Nat.eqb_refl.
  reflexivity.
Qed.

Lemma variable_init_spec (cls : pyclass) (strategy : Strategy)
  (values : list value) (aggregation : VariableAggregation) (h : heap) :
  Forall (is_physical h) values ->
  values <> [] ->
  exists h',
    Variable__init__ cls strategy values aggregation h
      = (Ok (List.length h), h') /\
    List.length h' = S (List.length h) /\
    deref h' (List.length h)
      = distributed_variable cls strategy aggregation values /\
    (forall o, In (VRef o) values ->
       deref h' o = set_container (deref h o) (Some (List.length h))) /\
    (forall o, o < List.length h -> ~ In (VRef o) values ->
       deref h' o = deref h o).
Proof.
  intros Hp Hne.
  set (n := List.length h).
  set (dv := distributed_variable cls strategy NONE values).
  set (h0 := h ++ [dv]).
  assert (Hvalid : forall v, In v values ->
            exists o, v = VRef o /\ o < n /\
              ob_class (deref h o) = cls_ResourceVariable).
  { intros v Hv. rewrite Forall_forall in Hp.
    destruct (Hp v Hv) as [o [-> [Ho [Hc _]]]]. exists o. auto. }
  assert (Hname : primary_name n h0 = (Ok tt, h0)).
  { unfold primary_name, primary, h0. rewrite deref_app_new. simpl.
    destruct values as [|v vs]; [contradiction|].
    destruct (Hvalid v (or_introl eq_refl)) as [o [-> [Ho Hc]]].
    unfold py_getitem. simpl. rewrite deref_app by exact Ho.
    rewrite Hc. reflexivity. }
  destruct (set_containers n values h0) as [h1 [Hset [Hlen1 Hd1]]].
  { apply Forall_forall. intros v Hv.
    destruct (Hvalid v Hv) as [o [-> [Ho _]]]. exists o.
    split; [reflexivity|]. unfold h0. rewrite length_app. simpl. lia. }
  assert (Hnot : existsb (fun v => is_same v (VRef n)) values = false).
  { destruct (existsb _ values) eqn:E; [|reflexivity].
    apply existsb_is_same_In in E.
    destruct (Hvalid _ E) as [o [Heq [Ho _]]]. injection Heq as <-. lia. }
  assert (Hn1 : n < List.length h1).
  { rewrite Hlen1. unfold h0. rewrite length_app. simpl. lia. }
  exists (update h1 n (set_aggregation (deref h1 n) aggregation)).
  split; [| split; [| split; [| split]]].
  - unfold Variable__init__, DistributedVariable__init__.
    unfold bind at 1. unfold bind at 1. fold n dv h0.
    unfold bind at 1. rewrite Hname. unfold bind at 1. rewrite Hset.
    unfold ret. reflexivity.
  - rewrite length_update, Hlen1. unfold h0. rewrite length_app. simpl.
    fold n. lia.
  - rewrite deref_update_eq by exact Hn1.
    rewrite Hd1, Hnot. unfold h0. rewrite deref_app_new. reflexivity.
  - intros o Ho. destruct (Hvalid _ Ho) as [o' [Heq [Hlt _]]].
    injection Heq as <-.
    rewrite deref_update_neq by lia.
    rewrite Hd1, (proj2 (existsb_is_same_In o values) Ho).
    unfold h0. rewrite deref_app by exact Hlt. reflexivity.
  - intros o Ho Hnin. rewrite deref_update_neq by (fold n; lia).
    rewrite Hd1.
    destruct (existsb (fun v => is_same v (VRef o)) values) eqn:E.
    + apply existsb_is_same_In in E. contradiction.
    + unfold h0. apply deref_app. exact Ho.
Qed.

(** X15.  Constructing a MirroredVariable or SyncOnReadVariable over a
    non-empty sequence of physical variables yields a new object with the
    given class, strategy, elements and aggregation, and makes every
    element refer back to it: afterwards [value_container] of each
    element is the new variable (whatever container the element referred
    to before), and [regroup] of the elements returns it.  Only the
    back-reference of the elements is touched; every other object of the
    store is as before. *)
Theorem variable_construction_links_elements :
  forall (wrap_class : list value -> M value) (cls : pyclass)
         (strategy : Strategy) (values : list value)
         (aggregation : VariableAggregation) (h : heap),
    Forall (is_physical h) values ->
    values <> [] ->
    exists h',
      Variable__init__ cls strategy values aggregation h
        = (Ok (List.length h), h') /\
      deref h' (List.length h)
        = distributed_variable cls strategy aggregation values /\
      (forall o, In (VRef o) values ->
         deref h' o = set_container (deref h o) (Some (List.length h))) /\
      (forall o, o < List.length h -> ~ In (VRef o) values ->
         deref h' o = deref h o) /\
      (forall v, In v values ->
         value_container h' v = Ok (VRef (List.length h))) /\
      regroup values wrap_class h' = (Ok (VRef (List.length h)), h').
Proof.
  intros wrap_class cls strategy values aggregation h Hp Hne.
  destruct (variable_init_spec cls strategy values aggregation h Hp Hne)
    as [h' [Hrun [_ [Hself [Hel Hother]]]]].
  assert (Hcall : forall v, In v values ->
            call__distributed_container h' v = Ok (Some (List.length h)) /\
            isinstance_v h' v cls_DistributedVariable = false).
  { intros v Hv. rewrite Forall_forall in Hp.
    destruct (Hp v Hv) as [o [-> [Ho [Hc _]]]]. simpl.
    rewrite (Hel o Hv). simpl. unfold weakref_call. rewrite Hself. simpl.
    split; [reflexivity|]. unfold isinstance. simpl. rewrite Hc.
    reflexivity. }
  exists h'. repeat split; try assumption.
  - intros v Hv. destruct (Hcall v Hv) as [Hc Hi].
    rewrite value_container_cases, Hi, Hc.
    assert (Ha : hasattr__distributed_container h' v = true).
    { destruct v as [o|k cs]; simpl in *; [|discriminate].
      destruct (_distributed_container (deref h' o));
        [reflexivity | discriminate]. }
    rewrite Ha. reflexivity.
  - destruct values as [|v vs]; [contradiction|].
    rewrite Forall_forall in Hp.
    destruct (Hp v (or_introl eq_refl)) as [o [-> _]].
    apply regroup_shared_container.
    + apply (Hcall (VRef o)). left. reflexivity.
    + apply (Hcall (VRef o)). left. reflexivity.
    + intros w Hw. apply (Hcall w). right. exact Hw.
Qed.

Lemma variable_construction_links_elements_witness :
  let h := heap_variable cls_MirroredVariable SUM float32 (Qc_of_Z 2) in
  exists h',
    Variable__init__ cls_SyncOnReadVariable strategy_B [VRef 0; VRef 1]
      MEAN h = (Ok 3, h') /\
    value_container h' (VRef 0) = Ok (VRef 3) /\
    regroup [VRef 0; VRef 1] PerReplica h' = (Ok (VRef 3), h').
Proof.
  intros h.
  destruct (variable_construction_links_elements PerReplica
              cls_SyncOnReadVariable strategy_B [VRef 0; VRef 1] MEAN h
              ltac:(physical_elements) ltac:(discriminate))
    as [h' [Hrun [_ [_ [_ [Hvc Hre]]]]]].
  exists h'. split; [exact Hrun | split; [|exact Hre]].
  apply Hvc. left. reflexivity.
Defined.

(* ------------------------------------------------------------------ *)
(** ** create_mirrored_variable *)



(* ------------------------------------------------------------------ *)
(** ** Restore of a MirroredVariable *)

(** X17.  [_MirroredSaveable.restore] writes the restored tensor as it
    is, whatever the aggregation policy, to every physical element of the
    mirrored variable, so that all elements hold the same content
    afterwards, and changes nothing else.  Both saveables unpack exactly
    one restored tensor: with none or several, [restore] raises ValueError
    and writes nothing. *)
Theorem mirrored_restore_fans_out :
  forall (h : heap) (self : oid),
    (forall restored_tensors,
       List.length restored_tensors <> 1 ->
       exists msg,
         _MirroredSaveable.restore self restored_tensors h
           = (Raise (ValueError msg), h) /\
         _SyncOnReadSaveable.restore self restored_tensors h
           = (Raise (ValueError msg), h)) /\
    (Forall (is_physical h) (_values (deref h self)) ->
     NoDup (_values (deref h self)) ->
     forall tensor, exists h',
       _MirroredSaveable.restore self [tensor] h = (Ok tt, h') /\
       (forall o, In (VRef o) (_values (deref h self)) ->
          ob_tensor (deref h' o) = tensor) /\
       (forall o, ~ In (VRef o) (_values (deref h self)) ->
          deref h' o = deref h o)).
Proof.
  intros h self. split.
  - intros ts Hlen. eexists.
    destruct ts as [|t [|t' ts]]; simpl in Hlen; try lia;
      split; reflexivity.
  - intros Hp Hn tensor.
    destruct (group_on_devices_fans_out assign_fn tensor _ _ Hp Hn)
      as [h' [Hrun [_ [Hin Hout]]]].
    exists h'. split; [| split].
    + unfold _MirroredSaveable.restore, bind, read. exact Hrun.
    + intros o Ho. rewrite (Hin o Ho). reflexivity.
    + exact Hout.
Qed.

Lemma mirrored_restore_fans_out_witness :
  let h := heap_variable cls_MirroredVariable SUM float32 (Qc_of_Z 2) in
  exists h',
    _MirroredSaveable.restore 2 [Qc_of_Z 6] h = (Ok tt, h') /\
    ob_tensor (deref h' 0) = Qc_of_Z 6 /\
    ob_tensor (deref h' 1) = Qc_of_Z 6.
Proof.
  intros h.
  destruct (proj2 (mirrored_restore_fans_out h 2)
              ltac:(physical_elements) ltac:(distinct_elements)
              (Qc_of_Z 6)) as [h' [Hrun [Hin _]]].
  exists h'. split; [exact Hrun|].
  split; apply Hin; simpl; auto.
Defined.

(* ------------------------------------------------------------------ *)
(** ** Components of a PerReplica *)

(** X18.  Where flattening is permitted (cross-replica context, or a
    replica context with at most one replica in sync),
    [_to_components] undoes [_from_components]: the PerReplica built from
    a sequence of components is a new object of the store, no existing
    object changes, and flattening it gives back the sequence.  In the
    other direction, rebuilding from the components of a value gives a
    new PerReplica with the same components, not the value itself. *)
Theorem per_replica_components_round_trip :
  forall (env : Env) (h : heap),
    (forall rc, get_replica_context env = Some rc ->
                (num_replicas_in_sync rc <= 1)%Z) ->
    (forall tensor_list, exists h',
       _from_components tensor_list h = (Ok (VRef (List.length h)), h') /\
       isinstance (deref h' (List.length h)) cls_PerReplica = true /\
       (forall o, o < List.length h -> deref h' o = deref h o) /\
       _to_components env h' (List.length h) = Ok tensor_list) /\
    (forall value_ components,
       value_ < List.length h ->
       _to_components env h value_ = Ok components ->
       exists h',
         _from_components components h = (Ok (VRef (List.length h)), h') /\
         VRef (List.length h) <> VRef value_ /\
         _values (deref h' (List.length h)) = _values (deref h value_)).
Proof.
  intros env h Hctx.
  assert (Hto : forall h0 v, _to_components env h0 v = Ok (_values (deref h0 v))).
  { intros h0 v. unfold _to_components.
    destruct (get_replica_context env) as [rc|] eqn:E; [|reflexivity].
    specialize (Hctx rc eq_refl).
    destruct (Z.ltb_spec 1 (num_replicas_in_sync rc)); [lia | reflexivity]. }
  split.
  - intros tensor_list.
    exists (h ++ [new_container cls_PerReplica tensor_list]).
    split; [reflexivity|]. rewrite Hto, deref_app_new.
    repeat split. intros o Ho. apply deref_app. exact Ho.
  - intros value_ components Hv Hc. rewrite Hto in Hc. injection Hc as <-.
    exists (h ++ [new_container cls_PerReplica (_values (deref h value_))]).
    split; [reflexivity|]. rewrite deref_app_new. split; [|reflexivity].
    intros Heq. injection Heq as Heq. lia.
Qed.

Lemma per_replica_components_round_trip_witness :
  exists h',
    _from_components [VRef 0; VRef 1] heap_tensors = (Ok (VRef 3), h') /\
    _to_components (env_cross strategy_A) h' 3 = Ok [VRef 0; VRef 1].
Proof.
  destruct (proj1 (per_replica_components_round_trip (env_cross strategy_A)
                     heap_tensors ltac:(intros rc Hrc; discriminate Hrc))
              [VRef 0; VRef 1]) as [h' [Hfrom [_ [_ Hto]]]].
  exists h'. split; assumption.
Defined.

(* ------------------------------------------------------------------ *)
(** ** The round trip for a wrapper class and a selection function *)

Section RegroupRoundTrip.

Variable c : pyclass.
Variable f : heap -> Z -> value -> result value.
Variable P : heap -> value -> Prop.

Hypothesis P_leaf : forall h v, P h v ->
  exists o, v = VRef o /\ o < List.length h /\
            _distributed_container (deref h o) = None.
Hypothesis P_app : forall h ext v, P h v -> P (h ++ ext) v.
Hypothesis f_app : forall h ext i o, o < List.length h ->
  f (h ++ ext) i (VRef o) = f h i (VRef o).
Hypothesis f_keeps : forall h i v, P h v -> f h i v = Ok v.
Hypothesis f_slices : forall h values i x,
  nth_error values i = Some x ->
  f (h ++ [new_container c values]) (Z.of_nat i) (VRef (List.length h))
  = Ok x.









End RegroupRoundTrip.









